(** * A shallow embedding of the trading bot's risk manager and strategies

    Sources: [modules/risk_manager.py] and [modules/strategies.py].

    Number model.  Python's [float] (and [int]) values are embedded as exact
    rationals [Q]; floating-point rounding error is outside the model.
    [math.floor], [math.ceil], [round(x, n)], [abs] and
    [round(-math.log10(x))] are the exact mathematical functions.  A float
    [NaN] produced by an indicator is [None] of [option Q].

    Where the model and binary64 part.  A float product that lies next to an
    integer can fall on either side of it ([0.57 * 100] is
    [56.99999999999999]), so [math.floor] or [math.ceil] of a product can
    differ by one from the exact value, and a floored quantity can sit one
    grid unit lower than the exact one.  The statements below about the value
    of a floored or raised quantity are therefore bounds with a margin of one
    grid unit, which both the exact and the binary64 evaluation satisfy; they
    do not fix the grid point.

    Control model.  A Python body either falls through to the next statement,
    leaves the function through [return], or raises: the [flow] monad below.
    The two mutable fields of a [RiskManager] instance are threaded
    explicitly. *)

From Stdlib Require Import QArith Qround Qabs Qpower Lqa ZArith Lia Bool.
From stdpp Require Import gmap strings list.

Local Open Scope Q_scope.

(** ** Python numbers *)

Module PyNum.

Definition Qltb (x y : Q) : bool := negb (Qle_bool y x).

(** Truth value of a number used as a condition: zero is false. *)
Definition truthy (x : Q) : bool := negb (Qeq_bool x 0).

(** [10**p] for an integer [p] (a float when [p] is negative). *)
Definition pow10 (p : Z) : Q := (10 # 1) ^ p.

(** Round half to even, the rule of Python's [round]. *)
Definition round_half_even (x : Q) : Z :=
  let f := Qfloor x in
  let r := x - inject_Z f in
  if Qltb r (1 # 2) then f
  else if Qltb (1 # 2) r then (f + 1)%Z
  else if Z.even f then f else (f + 1)%Z.

(** [round(x, ndigits)]. *)
Definition py_round (x : Q) (ndigits : Z) : Q :=
  inject_Z (round_half_even (x * pow10 ndigits)) / pow10 ndigits.

(** [decade_search fuel s2 p]: with [s2] a square, move [s2] into the
    decade [1/10, 10] by factors of 100, counting the moves in [p]. *)
Fixpoint decade_search (fuel : nat) (s2 : Q) (p : Z) : Z :=
  match fuel with
  | O => p
  | S fuel' =>
      if Qltb (10 # 1) s2 then decade_search fuel' (s2 * (1 # 100)) (p - 1)
      else if Qltb s2 (1 # 10) then decade_search fuel' (s2 * (100 # 1)) (p + 1)
      else p
  end.

(** [int(round(-math.log10(s)))] for [s > 0]: the integer [p] nearest to
    [-log10 s], that is the one with [10^(-2p-1) <= s^2 <= 10^(-2p+1)].
    The fuel bounds the number of decimal digits of [s]. *)
Definition round_neg_log10 (s : Q) : Z :=
  decade_search
    (Pos.to_nat (Pos.size (Z.to_pos (Qnum s))) + Pos.to_nat (Pos.size (Qden s)))
    (s * s) 0.

End PyNum.

(** ** Exceptions and early return *)

Inductive exn : Set := ZeroDivisionError | ValueError | IndexError | KeyError.

Inductive result (A : Type) : Type :=
| Ok (a : A)
| Raise (e : exn).
Arguments Ok {A} a.
Arguments Raise {A} e.

(** [flow R A]: a statement of a function returning [R] either continues
    with a value [A], returns [R] from the function, or raises. *)
Inductive flow (R A : Type) : Type :=
| Next (a : A)
| Return (r : R)
| Throw (e : exn).
Arguments Next {R A} a.
Arguments Return {R A} r.
Arguments Throw {R A} e.

#[global] Instance flow_bind {R} : MBind (flow R) := fun A B k m =>
  match m with
  | Next a => k a
  | Return r => Return r
  | Throw e => Throw e
  end.

#[global] Instance result_bind : MBind result := fun A B k m =>
  match m with
  | Ok a => k a
  | Raise e => Raise e
  end.

(** Use a possibly raising expression inside a body. *)
Definition lift {R A} (m : result A) : flow R A :=
  match m with
  | Ok a => Next a
  | Raise e => Throw e
  end.

(** The value a call produces from the flow of its body. *)
Definition run {R} (m : flow R R) : result R :=
  match m with
  | Next r => Ok r
  | Return r => Ok r
  | Throw e => Raise e
  end.

(** [x / y] on floats raises on a zero divisor. *)
Definition py_div (x y : Q) : result Q :=
  if Qeq_bool y 0 then Raise ZeroDivisionError else Ok (x / y).

(** ** Data model *)

(** Per-instrument precision and limits, as [get_symbol_info] reports them. *)
Record SymbolInfo : Type := {
  quantity_precision : Z;
  min_qty : Q;
  min_notional : Q;
  price_precision : Z
}.

(** Open position snapshot, as [get_position_info] reports it. *)
Record PositionInfo : Type := {
  position_amount : Q;
  entry_price : Q;
  leverage : Q
}.

(** The exchange client the manager calls into, at the time of one call. *)
Record Client : Type := {
  get_account_balance : Q;
  get_symbol_info : string -> option SymbolInfo;
  get_position_info : string -> option PositionInfo
}.

(** The constants imported from [modules.config], which is not part of the
    sources at hand: every definition takes them as a parameter. *)
Record Config : Type := {
  RISK_PER_TRADE : Q;
  USE_STOP_LOSS : bool;
  STOP_LOSS_PCT : Q;
  TRAILING_STOP : bool;
  TRAILING_STOP_PCT : Q;
  AUTO_COMPOUND : bool;
  COMPOUND_REINVEST_PERCENT : Q;
  RSI_PERIOD : Z;
  RSI_OVERBOUGHT : Q;
  RSI_OVERSOLD : Q;
  FAST_EMA : Z;
  SLOW_EMA : Z
}.

(** The mutable fields of a [RiskManager] instance. *)
Record RiskManager : Type := {
  initial_balance : option Q;
  last_known_balance : option Q
}.

(** [RiskManager.__init__]. *)
Definition new_RiskManager : RiskManager :=
  {| initial_balance := None; last_known_balance := None |}.

(** ** risk_manager.py *)

Module Risk.
Import PyNum.

(** [get_step_size(min_qty)]: both branches leave the number unchanged. *)
Definition get_step_size (min_qty : Q) : Q :=
  let step_size := min_qty in
  if Qltb 0 min_qty then min_qty else step_size.

(** [round_step_size(quantity, step_size)]; [math.log10] raises
    [ValueError] outside its domain.  The product, the quotient and the
    rounding are exact here; in binary64 the result is on the same grid but
    can be one unit lower than this one, or above the quantity by a rounding
    error. *)
Definition round_step_size (quantity step_size : Q) : result Q :=
  if Qle_bool step_size 0 then Raise ValueError
  else
    let precision := round_neg_log10 step_size in
    Ok (py_round (inject_Z (Qfloor (quantity * pow10 precision)) / pow10 precision)
          precision).

Section WithConfig.
Context (cfg : Config) (client : Client).

(** [get_current_leverage(symbol)]. *)
Definition get_current_leverage (symbol : string) : Q :=
  match get_position_info client symbol with
  | Some position_info => leverage position_info
  | None => 1
  end.

(** Lines 33-47 of [calculate_position_size]: the balance trackers. *)
Definition track_balance (balance : Q) (self : RiskManager) : RiskManager :=
  let self :=
    match initial_balance self with
    | None => {| initial_balance := Some balance; last_known_balance := Some balance |}
    | Some _ => self
    end in
  match last_known_balance self with
  | Some last =>
      if AUTO_COMPOUND cfg && Qltb 0 (balance - last)
      then {| initial_balance := initial_balance self;
              last_known_balance := Some balance |}
      else self
  | None => self
  end.

(** Lines 59-75: [max_quantity], the quantity before precision is applied.
    [Return 0] is the early return of the stop distance guard. *)
Definition max_quantity (balance : Q) (symbol : string) (price : Q)
    (stop_loss_price : option Q) : flow Q Q :=
  let risk_amount := balance * RISK_PER_TRADE cfg in
  let notional :=
    let leverage := get_current_leverage symbol in
    lift (py_div (balance * RISK_PER_TRADE cfg * leverage) price) in
  match stop_loss_price with
  | Some stop_loss_price =>
      if truthy stop_loss_price && USE_STOP_LOSS cfg then
        let risk_per_unit := Qabs (price - stop_loss_price) in
        if Qle_bool risk_per_unit 0 then Return 0
        else lift (py_div risk_amount risk_per_unit)
      else notional
  | None => notional
  end.

(** Lines 49-93: the body after the balance trackers. *)
Definition position_size_body (balance : Q) (symbol : string) (price : Q)
    (stop_loss_price : option Q) : flow Q Q :=
  if Qle_bool balance 0 then Return 0
  else
    match get_symbol_info client symbol with
    | None => Return 0
    | Some symbol_info =>
        max_quantity ← max_quantity balance symbol price stop_loss_price;
        let quantity_precision := quantity_precision symbol_info in
        quantity ← lift (round_step_size max_quantity
                           (get_step_size (min_qty symbol_info)));
        let min_notional := min_notional symbol_info in
        if Qltb (quantity * price) min_notional then
          bound ← lift (py_div min_notional price);
          if Qle_bool bound max_quantity then
            per_unit ← lift (py_div min_notional price);
            Next (inject_Z (Qceiling (per_unit * pow10 quantity_precision))
                  / pow10 quantity_precision)
          else Return 0
        else Next quantity
    end.

(** [calculate_position_size(symbol, side, price, stop_loss_price=None)]:
    the returned quantity (or the exception) and the instance afterwards. *)
Definition calculate_position_size (self : RiskManager) (symbol side : string)
    (price : Q) (stop_loss_price : option Q) : result Q * RiskManager :=
  let balance := get_account_balance client in
  (run (position_size_body balance symbol price stop_loss_price),
   track_balance balance self).

(** [calculate_stop_loss(symbol, side, entry_price)]. *)
Definition calculate_stop_loss (symbol side : string) (entry_price : Q) : option Q :=
  if negb (USE_STOP_LOSS cfg) then None
  else
    let stop_price :=
      if String.eqb side "BUY" then entry_price * (1 - STOP_LOSS_PCT cfg)
      else entry_price * (1 + STOP_LOSS_PCT cfg) in
    let stop_price :=
      match get_symbol_info client symbol with
      | Some symbol_info => py_round stop_price (price_precision symbol_info)
      | None => stop_price
      end in
    Some stop_price.

(** Truth value of [current_stop]: [None] and zero are false. *)
Definition truthy_opt (x : option Q) : bool :=
  match x with
  | Some v => truthy v
  | None => false
  end.

(** [adjust_stop_loss_for_trailing(symbol, side, current_price,
    position_info=None)]. *)
Definition adjust_stop_loss_for_trailing (symbol side : string) (current_price : Q)
    (position_info : option PositionInfo) : option Q :=
  if negb (TRAILING_STOP cfg) then None
  else
    let position_info :=
      match position_info with
      | Some _ => position_info
      | None => get_position_info client symbol
      end in
    match position_info with
    | None => None
    | Some position_info =>
        if Qeq_bool (Qabs (position_amount position_info)) 0 then None
        else
          let entry_price := entry_price position_info in
          let apply_precision (new_stop : Q) : option Q :=
            match get_symbol_info client symbol with
            | Some symbol_info => Some (py_round new_stop (price_precision symbol_info))
            | None => Some new_stop
            end in
          if String.eqb side "BUY" then
            let new_stop := current_price * (1 - TRAILING_STOP_PCT cfg) in
            let current_stop := calculate_stop_loss symbol side entry_price in
            if truthy_opt current_stop
               && Qle_bool new_stop (default 0 current_stop)
            then None
            else apply_precision new_stop
          else
            let new_stop := current_price * (1 + TRAILING_STOP_PCT cfg) in
            let current_stop := calculate_stop_loss symbol side entry_price in
            if truthy_opt current_stop
               && Qle_bool (default 0 current_stop) new_stop
            then None
            else apply_precision new_stop
    end.

(** [update_balance_for_compounding()]: the returned flag and the instance
    afterwards. *)
Definition update_balance_for_compounding (self : RiskManager) : bool * RiskManager :=
  if negb (AUTO_COMPOUND cfg) then (false, self)
  else
    let current_balance := get_account_balance client in
    match last_known_balance self with
    | None =>
        (false, {| initial_balance := Some current_balance;
                   last_known_balance := Some current_balance |})
    | Some last =>
        let profit := current_balance - last in
        if Qltb 0 profit then
          (true, {| initial_balance := initial_balance self;
                    last_known_balance := Some current_balance |})
        else (false, self)
    end.

End WithConfig.

(** The stop distance guard: when [max_quantity] returns early. *)
Definition stop_guard (cfg : Config) (price : Q) (stop_loss_price : option Q) : Prop :=
  exists sl, stop_loss_price = Some sl
             /\ ~ sl == 0 /\ USE_STOP_LOSS cfg = true /\ sl == price.

End Risk.

(** ** strategies.py *)

(** What [get_signal] returns: the strings ["BUY"] and ["SELL"], or [None]. *)
Inductive Signal : Set := BUY | SELL | NONE.

(** One candle of the raw [klines]; the exchange's trailer fields are never
    read.  [prepare_data] turns the columns below into numbers. *)
Record Kline : Type := {
  open_time : Z;
  open : Q;
  high : Q;
  low : Q;
  close : Q;
  volume : Q;
  close_time : Z
}.

Module Strategies.
Import PyNum.

(** Comparisons of floats that may be [NaN]: false as soon as one side is. *)
Definition flt (a b : option Q) : bool :=
  match a, b with
  | Some x, Some y => Qltb x y
  | _, _ => false
  end.

Definition fle (a b : option Q) : bool :=
  match a, b with
  | Some x, Some y => Qle_bool x y
  | _, _ => false
  end.

Definition fgt (a b : option Q) : bool := flt b a.
Definition fge (a b : option Q) : bool := fle b a.

(** [s.iloc[-k]] for [k >= 1]: the [k]-th value from the end, [IndexError]
    when the series is shorter. *)
Definition iloc_neg {A} (s : list A) (k : nat) : result A :=
  if (length s <? k)%nat then Raise IndexError
  else
    match s !! (length s - k)%nat with
    | Some v => Ok v
    | None => Raise IndexError
    end.

(** The [close] column of the frame [prepare_data] builds. *)
Definition prepare_data (klines : list Kline) : list Q := map close klines.

(** A strategy instance with the fields its constructor sets. *)
Inductive Strategy : Type :=
| RSIStrategy (rsi_period : Z) (rsi_overbought rsi_oversold : Q)
| EMAStrategy (fast_ema slow_ema : Z)
| RSIEMAStrategy (rsi_strategy ema_strategy : Strategy)
| BollingerBandsStrategy (window : Z) (window_dev : Q).

(** Lines 60-72: the decision of [RSIStrategy.get_signal] on the RSI
    column. *)
Definition rsi_decision (rsi_overbought rsi_oversold : Q) (rsi : list (option Q))
    : result Signal :=
  last_rsi ← iloc_neg rsi 1;
  prev_rsi ← iloc_neg rsi 2;
  if flt last_rsi (Some rsi_oversold) && fge prev_rsi (Some rsi_oversold) then Ok BUY
  else if fgt last_rsi (Some rsi_overbought) && fle prev_rsi (Some rsi_overbought)
       then Ok SELL
  else Ok NONE.

(** Lines 96-110: the decision of [EMAStrategy.get_signal] on the two EMA
    columns. *)
Definition ema_decision (fast slow : list (option Q)) : result Signal :=
  current_fast ← iloc_neg fast 1;
  current_slow ← iloc_neg slow 1;
  prev_fast ← iloc_neg fast 2;
  prev_slow ← iloc_neg slow 2;
  if fgt current_fast current_slow && fle prev_fast prev_slow then Ok BUY
  else if flt current_fast current_slow && fge prev_fast prev_slow then Ok SELL
  else Ok NONE.

(** Lines 144-153: how [RSIEMAStrategy.get_signal] combines the two
    sub-signals. *)
Definition rsi_ema_decision (rsi_signal ema_signal : Signal) : Signal :=
  match rsi_signal, ema_signal with
  | BUY, (BUY | NONE) => BUY
  | SELL, (SELL | NONE) => SELL
  | _, _ => NONE
  end.

(** Lines 177-195: the decision of [BollingerBandsStrategy.get_signal]. *)
Definition bb_decision (closes : list Q) (bb_high bb_low : list (option Q))
    : result Signal :=
  current_price ← iloc_neg closes 1;
  current_bb_low ← iloc_neg bb_low 1;
  current_bb_high ← iloc_neg bb_high 1;
  prev_price ← iloc_neg closes 2;
  prev_bb_low ← iloc_neg bb_low 2;
  prev_bb_high ← iloc_neg bb_high 2;
  if flt (Some current_price) current_bb_low && fge (Some prev_price) prev_bb_low
  then Ok BUY
  else if fgt (Some current_price) current_bb_high
          && fle (Some prev_price) prev_bb_high
       then Ok SELL
  else Ok NONE.

Section WithIndicators.
(** The indicators of the [ta] package, from a close column and a window to
    an indicator column (with [NaN] where the window is not filled). *)
Context (RSIIndicator : list Q -> Z -> list (option Q)).
Context (EMAIndicator : list Q -> Z -> list (option Q)).
Context (bollinger_hband bollinger_lband : list Q -> Z -> Q -> list (option Q)).

(** [get_signal(klines)], dispatched on the class of the instance. *)
Fixpoint get_signal (self : Strategy) (klines : list Kline) : result Signal :=
  match self with
  | RSIStrategy rsi_period rsi_overbought rsi_oversold =>
      let df := prepare_data klines in
      rsi_decision rsi_overbought rsi_oversold (RSIIndicator df rsi_period)
  | EMAStrategy fast_ema slow_ema =>
      let df := prepare_data klines in
      ema_decision (EMAIndicator df fast_ema) (EMAIndicator df slow_ema)
  | RSIEMAStrategy rsi_strategy ema_strategy =>
      rsi_signal ← get_signal rsi_strategy klines;
      ema_signal ← get_signal ema_strategy klines;
      Ok (rsi_ema_decision rsi_signal ema_signal)
  | BollingerBandsStrategy window window_dev =>
      let df := prepare_data klines in
      bb_decision df (bollinger_hband df window window_dev)
        (bollinger_lband df window window_dev)
  end.

Context (cfg : Config).

(** The constructors, reading [modules.config]. *)
Definition new_RSIStrategy : Strategy :=
  RSIStrategy (RSI_PERIOD cfg) (RSI_OVERBOUGHT cfg) (RSI_OVERSOLD cfg).
Definition new_EMAStrategy : Strategy :=
  EMAStrategy (FAST_EMA cfg) (SLOW_EMA cfg).
Definition new_RSIEMAStrategy : Strategy :=
  RSIEMAStrategy new_RSIStrategy new_EMAStrategy.
Definition new_BollingerBandsStrategy : Strategy :=
  BollingerBandsStrategy 20 2.

(** The registry built by [get_strategy]. *)
Definition strategies : gmap string Strategy :=
  <["RSI" := new_RSIStrategy]>
    (<["EMA_Cross" := new_EMAStrategy]>
       (<["RSI_EMA" := new_RSIEMAStrategy]>
          (<["Bollinger_Bands" := new_BollingerBandsStrategy]> ∅))).

(** [d[key]] on a dict. *)
Definition getitem {A} (d : gmap string A) (key : string) : result A :=
  match d !! key with
  | Some v => Ok v
  | None => Raise KeyError
  end.

(** [get_strategy(strategy_name)]. *)
Definition get_strategy (strategy_name : string) : result Strategy :=
  if bool_decide (is_Some (strategies !! strategy_name))
  then getitem strategies strategy_name
  else getitem strategies "RSI_EMA".

(** The signals a caller sees bar after bar, when the RSI column is [rsi]:
    the decision on the column up to and including bar [i], for every bar
    that has a predecessor. *)
Definition rsi_signals_along (rsi_overbought rsi_oversold : Q)
    (rsi : list (option Q)) : list (result Signal) :=
  map (fun i => rsi_decision rsi_overbought rsi_oversold (take (S i) rsi))
      (seq 1 (length rsi - 1)).

End WithIndicators.
End Strategies.

(** ** Concrete inputs *)

Module Fixtures.

(** A configuration with customary values. *)
Definition cfg : Config := {|
  RISK_PER_TRADE := 1 # 100;
  USE_STOP_LOSS := true;
  STOP_LOSS_PCT := 2 # 100;
  TRAILING_STOP := true;
  TRAILING_STOP_PCT := 1 # 100;
  AUTO_COMPOUND := true;
  COMPOUND_REINVEST_PERCENT := 75 # 100;
  RSI_PERIOD := 14;
  RSI_OVERBOUGHT := 70;
  RSI_OVERSOLD := 30;
  FAST_EMA := 9;
  SLOW_EMA := 21
|}.

(** An instrument traded in thousandths, prices in cents. *)
Definition milli : SymbolInfo := {|
  quantity_precision := 3;
  min_qty := 1 # 1000;
  min_notional := 5;
  price_precision := 2
|}.

(** A client whose answers do not depend on the symbol. *)
Definition client (balance : Q) (info : option SymbolInfo)
    (position : option PositionInfo) : Client := {|
  get_account_balance := balance;
  get_symbol_info := fun _ => info;
  get_position_info := fun _ => position
|}.

(** A long position of one unit entered at 100 with 10x leverage. *)
Definition long10 : PositionInfo := {|
  position_amount := 1;
  entry_price := 100;
  leverage := 10
|}.

(** A candle closing at [c]. *)
Definition bar (c : Q) : Kline := {|
  open_time := 0; open := c; high := c; low := c; close := c; volume := 1;
  close_time := 0
|}.

(** Four candles. *)
Definition four_bars : list Kline := [bar 100; bar 101; bar 102; bar 103].

(** An indicator whose column is known in advance: at each bar it shows
    the column up to that bar. *)
Definition column (col : list (option Q)) (closes : list Q) (window : Z)
    : list (option Q) :=
  take (length closes) col.

(** Two such columns, one for the fast and one for the slow window. *)
Definition columns (fast_window : Z) (fast slow : list (option Q))
    (closes : list Q) (window : Z) : list (option Q) :=
  if (window =? fast_window)%Z then take (length closes) fast
  else take (length closes) slow.

(** Bands that are never filled. *)
Definition no_band (closes : list Q) (window : Z) (window_dev : Q)
    : list (option Q) :=
  map (fun _ => None) closes.

End Fixtures.

(** ** The rest of risk_manager.py and strategies.py *)

(** One entry of [client.client.futures_position_information()], with its
    ['positionAmt'] read through [float]. *)
Record FuturesPosition : Type := {
  positionAmt : Q
}.

Module RiskMore.
Import PyNum Risk.

Section WithConfig.
Context (cfg : Config) (client : Client).
(** Three more constants of [modules.config]. *)
Context (USE_TAKE_PROFIT : bool) (TAKE_PROFIT_PCT : Q) (MAX_OPEN_POSITIONS : Z).
(** What [futures_position_information()] answers at the time of the call. *)
Context (futures_position_information : list FuturesPosition).

(** [should_open_position(symbol)]. *)
Definition should_open_position (symbol : string) : bool :=
  let has_position :=
    match get_position_info client symbol with
    | Some position_info => Qltb 0 (Qabs (position_amount position_info))
    | None => false
    end in
  if has_position then false
  else
    let positions := futures_position_information in
    let open_positions :=
      List.filter (fun p => negb (Qeq_bool (positionAmt p) 0)) positions in
    if (MAX_OPEN_POSITIONS <=? Z.of_nat (length open_positions))%Z then false
    else true.

(** [calculate_take_profit(symbol, side, entry_price)]. *)
Definition calculate_take_profit (symbol side : string) (entry_price : Q) : option Q :=
  if negb USE_TAKE_PROFIT then None
  else
    let take_profit_price :=
      if String.eqb side "BUY" then entry_price * (1 + TAKE_PROFIT_PCT)
      else entry_price * (1 - TAKE_PROFIT_PCT) in
    let take_profit_price :=
      match get_symbol_info client symbol with
      | Some symbol_info => py_round take_profit_price (price_precision symbol_info)
      | None => take_profit_price
      end in
    Some take_profit_price.

End WithConfig.

(** One call of a method that writes the balance trackers, with the client
    as it answers during that call. *)
Inductive Call : Type :=
| Size (client : Client) (symbol side : string) (price : Q)
       (stop_loss_price : option Q)
| Compound (client : Client).

(** The balance a call reads. *)
Definition call_balance (c : Call) : Q :=
  match c with
  | Size client _ _ _ _ => get_account_balance client
  | Compound client => get_account_balance client
  end.

(** The instance after one call, and after a sequence of calls. *)
Definition after_call (cfg : Config) (self : RiskManager) (c : Call) : RiskManager :=
  match c with
  | Size client symbol side price stop_loss_price =>
      snd (calculate_position_size cfg client self symbol side price stop_loss_price)
  | Compound client => snd (update_balance_for_compounding cfg client self)
  end.

Definition after_calls (cfg : Config) (self : RiskManager) (calls : list Call)
    : RiskManager :=
  fold_left (after_call cfg) calls self.

(** The relation the two trackers stand in: unset together, or set together
    with the initial balance not above the last known one. *)
Definition trackers_ok (self : RiskManager) : Prop :=
  match initial_balance self, last_known_balance self with
  | None, None => True
  | Some initial, Some last => initial <= last
  | _, _ => False
  end.

End RiskMore.

Module StrategiesMore.
Import Strategies.

(** [self.strategy_name], the name each class passes to
    [TradingStrategy.__init__]. *)
Definition strategy_name (self : Strategy) : string :=
  match self with
  | RSIStrategy _ _ _ => "RSI"
  | EMAStrategy _ _ => "EMA_Cross"
  | RSIEMAStrategy _ _ => "RSI_EMA"
  | BollingerBandsStrategy _ _ => "Bollinger_Bands"
  end.

End StrategiesMore.

Module MoreFixtures.

(** An indicator that shows the closes themselves. *)
Definition echo (closes : list Q) (window : Z) : list (option Q) :=
  map Some closes.

End MoreFixtures.

(** * Properties *)

(** ** Facts about the number model *)

Module PyNumFacts.
Import PyNum.

Lemma Qltb_lt (x y : Q) : Qltb x y = true <-> x < y.
Proof.
  unfold Qltb. rewrite negb_true_iff, <- not_true_iff_false, Qle_bool_iff.
  split; [apply Qnot_le_lt | apply Qlt_not_le].
Qed.

Lemma Qltb_ge (x y : Q) : Qltb x y = false <-> y <= x.
Proof.
  unfold Qltb. rewrite negb_false_iff. apply Qle_bool_iff.
Qed.

Lemma Qle_bool_gt (x y : Q) : Qle_bool x y = false <-> y < x.
Proof.
  rewrite <- not_true_iff_false, Qle_bool_iff.
  split; [apply Qnot_le_lt | apply Qlt_not_le].
Qed.

Lemma truthy_true (x : Q) : truthy x = true <-> ~ x == 0.
Proof.
  unfold truthy. rewrite negb_true_iff, <- not_true_iff_false, Qeq_bool_iff.
  tauto.
Qed.

Lemma truthy_false (x : Q) : truthy x = false <-> x == 0.
Proof.
  unfold truthy. rewrite negb_false_iff. apply Qeq_bool_iff.
Qed.

Lemma pow10_pos (p : Z) : 0 < pow10 p.
Proof. apply Qpower_0_lt. reflexivity. Qed.

Lemma pow10_nonzero (p : Z) : ~ pow10 p == 0.
Proof. pose proof (pow10_pos p). lra. Qed.

Lemma pow10_opp (p : Z) : pow10 (- p) == / pow10 p.
Proof. apply Qpower_opp. Qed.

(** Division by a power of ten, as a product. *)
Lemma div_pow10 (x : Q) (p : Z) : x / pow10 p == x * pow10 (- p).
Proof. rewrite pow10_opp. reflexivity. Qed.

Lemma round_half_even_cases (x : Q) :
  round_half_even x = Qfloor x \/ round_half_even x = (Qfloor x + 1)%Z.
Proof.
  unfold round_half_even.
  repeat match goal with |- context [if ?b then _ else _] => destruct b end; auto.
Qed.

(** Rounding moves a number by at most one half. *)
Lemma round_half_even_near (x : Q) :
  x - (1 # 2) <= inject_Z (round_half_even x) <= x + (1 # 2).
Proof.
  pose proof (Qfloor_le x) as Hlo. pose proof (Qlt_floor x) as Hhi.
  rewrite inject_Z_plus in Hhi. change (inject_Z 1) with 1 in Hhi.
  unfold round_half_even.
  destruct (Qltb (x - inject_Z (Qfloor x)) (1 # 2)) eqn:E1.
  { apply Qltb_lt in E1. lra. }
  apply Qltb_ge in E1.
  destruct (Qltb (1 # 2) (x - inject_Z (Qfloor x))) eqn:E2.
  { rewrite inject_Z_plus. change (inject_Z 1) with 1. lra. }
  apply Qltb_ge in E2.
  destruct (Z.even (Qfloor x)).
  - lra.
  - rewrite inject_Z_plus. change (inject_Z 1) with 1. lra.
Qed.

(** An integer is its own rounding. *)
Lemma round_half_even_Z (z : Z) : round_half_even (inject_Z z) = z.
Proof.
  unfold round_half_even. rewrite Qfloor_Z.
  destruct (Qltb (inject_Z z - inject_Z z) (1 # 2)) eqn:E; [reflexivity|].
  apply Qltb_ge in E. lra.
Qed.

Lemma round_half_even_comp (x y : Q) : x == y -> round_half_even x = round_half_even y.
Proof.
  intros H. unfold round_half_even, Qltb. rewrite (Qfloor_comp x y H).
  assert (Hr : x - inject_Z (Qfloor y) == y - inject_Z (Qfloor y)) by lra.
  rewrite (Qleb_comp _ _ (Qeq_refl (1 # 2)) _ _ Hr).
  rewrite (Qleb_comp _ _ Hr _ _ (Qeq_refl (1 # 2))). reflexivity.
Qed.

(** Rounding is monotone. *)
Lemma round_half_even_mono (x y : Q) :
  x <= y -> (round_half_even x <= round_half_even y)%Z.
Proof.
  intros Hxy. pose proof (Qfloor_resp_le _ _ Hxy) as Hf.
  destruct (Z.eq_dec (Qfloor x) (Qfloor y)) as [Heq | Hne].
  - unfold round_half_even. rewrite Heq.
    destruct (Qltb (x - inject_Z (Qfloor y)) (1 # 2)) eqn:E1.
    + repeat match goal with |- context [if ?b then _ else _] => destruct b end; lia.
    + apply Qltb_ge in E1.
      destruct (Qltb (y - inject_Z (Qfloor y)) (1 # 2)) eqn:E2.
      { apply Qltb_lt in E2.
        assert (x - inject_Z (Qfloor y) == 1 # 2) by lra. lra. }
      apply Qltb_ge in E2.
      destruct (Qltb (1 # 2) (x - inject_Z (Qfloor y))) eqn:E3.
      * apply Qltb_lt in E3.
        destruct (Qltb (1 # 2) (y - inject_Z (Qfloor y))) eqn:E4; [lia|].
        apply Qltb_ge in E4. lra.
      * repeat match goal with |- context [if ?b then _ else _] => destruct b end; lia.
  - destruct (round_half_even_cases x) as [-> | ->];
      destruct (round_half_even_cases y) as [-> | ->]; lia.
Qed.

(** [round(x, n)] moves [x] by at most half a unit of the [n]-th decimal. *)
Lemma py_round_near (x : Q) (n : Z) :
  x - (1 # 2) * pow10 (- n) <= py_round x n <= x + (1 # 2) * pow10 (- n).
Proof.
  unfold py_round. rewrite div_pow10, pow10_opp.
  pose proof (round_half_even_near (x * pow10 n)) as [Hlo Hhi].
  pose proof (pow10_pos n) as Ht.
  assert (Hi : 0 < / pow10 n) by (apply Qinv_lt_0_compat; exact Ht).
  assert (Hti : pow10 n * / pow10 n == 1) by (apply Qmult_inv_r, pow10_nonzero).
  set (t := pow10 n) in *. set (i := / t) in *.
  set (z := inject_Z (round_half_even (x * t))) in *.
  assert (Hx : x * t * i == x).
  { transitivity (x * (t * i)); [ring | rewrite Hti; ring]. }
  assert (H1 : 0 <= (z - (x * t - (1 # 2))) * i)
    by (apply Qmult_le_0_compat; lra).
  assert (H2 : 0 <= (x * t + (1 # 2) - z) * i)
    by (apply Qmult_le_0_compat; lra).
  split; lra.
Qed.

(** A number with at most [n] decimals is its own [round(x, n)]. *)
Lemma py_round_grid (k n : Z) :
  py_round (inject_Z k / pow10 n) n == inject_Z k / pow10 n.
Proof.
  unfold py_round.
  assert (H : inject_Z k / pow10 n * pow10 n == inject_Z k).
  { field. apply pow10_nonzero. }
  rewrite (round_half_even_comp _ _ H), round_half_even_Z. reflexivity.
Qed.

(** [round(x, n)] is monotone in [x]. *)
Lemma py_round_mono (x y : Q) (n : Z) : x <= y -> py_round x n <= py_round y n.
Proof.
  intros Hxy. unfold py_round. pose proof (pow10_pos n) as Ht.
  apply Qmult_le_compat_r.
  - rewrite <- Zle_Qle. apply round_half_even_mono.
    apply Qmult_le_compat_r; [exact Hxy | lra].
  - apply Qlt_le_weak, Qinv_lt_0_compat, Ht.
Qed.









Lemma Qabs_nonzero_pos (x : Q) : ~ x == 0 -> 0 < Qabs x.
Proof.
  intros H. destruct (Q_dec 0 x) as [[Hlt | Hgt] | Heq].
  - rewrite Qabs_pos by lra. exact Hlt.
  - rewrite Qabs_neg by lra. lra.
  - symmetry in Heq. contradiction.
Qed.

Lemma Qabs_zero (x : Q) : x == 0 -> Qabs x == 0.
Proof. intros H. rewrite Qabs_pos by lra. exact H. Qed.

End PyNumFacts.

(** ** Position sizing *)

Module RiskFacts.
Import PyNum PyNumFacts Risk.

Lemma py_div_nonzero (x y : Q) : ~ y == 0 -> py_div x y = Ok (x / y).
Proof.
  intros H. unfold py_div.
  destruct (Qeq_bool y 0) eqn:E; [|reflexivity].
  apply Qeq_bool_iff in E. contradiction.
Qed.

Lemma py_div_zero (x y : Q) : y == 0 -> py_div x y = Raise ZeroDivisionError.
Proof.
  intros H. unfold py_div. apply Qeq_bool_iff in H. rewrite H. reflexivity.
Qed.

Section WithConfig.
Context (cfg : Config) (client : Client).

(** The notional branch of [max_quantity]. *)
Lemma max_quantity_notional (balance : Q) (symbol : string) (price : Q)
    (stop_loss_price : option Q) :
  match stop_loss_price with
  | Some sl => truthy sl && USE_STOP_LOSS cfg = false
  | None => True
  end ->
  max_quantity cfg client balance symbol price stop_loss_price
  = lift (py_div (balance * RISK_PER_TRADE cfg * get_current_leverage client symbol)
            price).
Proof.
  unfold max_quantity. destruct stop_loss_price as [sl|]; [|reflexivity].
  intros ->. reflexivity.
Qed.

(** The risk-based branch of [max_quantity]. *)
Lemma max_quantity_risk_based (balance : Q) (symbol : string) (price sl : Q) :
  ~ sl == 0 -> USE_STOP_LOSS cfg = true -> ~ sl == price ->
  max_quantity cfg client balance symbol price (Some sl)
  = Next (balance * RISK_PER_TRADE cfg / Qabs (price - sl)).
Proof.
  intros Hsl Huse Hne. unfold max_quantity.
  apply truthy_true in Hsl. rewrite Hsl, Huse. cbn [andb].
  assert (Hpos : 0 < Qabs (price - sl)) by (apply Qabs_nonzero_pos; lra).
  destruct (Qle_bool (Qabs (price - sl)) 0) eqn:E.
  - apply Qle_bool_iff in E. lra.
  - rewrite py_div_nonzero by (intros E0; lra). reflexivity.
Qed.

End WithConfig.

(** ** The outcome of the sizing body, case by case *)

Lemma round_step_size_Ok (quantity step_size : Q) :
  0 < step_size ->
  exists floored,
    round_step_size quantity step_size = Ok floored
    /\ floored == inject_Z (Qfloor (quantity * pow10 (round_neg_log10 step_size)))
                  * pow10 (- round_neg_log10 step_size)
    /\ floored <= quantity.
Proof.
  intros Hstep. unfold round_step_size.
  destruct (Qle_bool step_size 0) eqn:E; [apply Qle_bool_iff in E; lra|].
  eexists. split; [reflexivity|].
  rewrite py_round_grid, div_pow10. split; [reflexivity|].
  set (p := round_neg_log10 step_size).
  pose proof (Qfloor_le (quantity * pow10 p)) as Hfl.
  pose proof (pow10_pos (- p)) as Hi. pose proof (pow10_opp p) as Ho.
  assert (Hti : pow10 p * pow10 (- p) == 1)
    by (rewrite Ho; apply Qmult_inv_r, pow10_nonzero).
  set (t := pow10 p) in *. set (i := pow10 (- p)) in *.
  set (z := inject_Z (Qfloor (quantity * t))) in *.
  assert (Hq : quantity * t * i == quantity).
  { transitivity (quantity * (t * i)); [ring | rewrite Hti; ring]. }
  assert (0 <= (quantity * t - z) * i) by (apply Qmult_le_0_compat; lra).
  lra.
Qed.

Lemma round_step_size_Raise (quantity step_size : Q) :
  step_size <= 0 -> round_step_size quantity step_size = Raise ValueError.
Proof.
  intros H. unfold round_step_size. apply Qle_bool_iff in H. rewrite H.
  reflexivity.
Qed.

Lemma get_step_size_id (min_qty : Q) : get_step_size min_qty = min_qty.
Proof. unfold get_step_size. destruct (Qltb 0 min_qty); reflexivity. Qed.

Section Body.
Context (cfg : Config) (client : Client).
Context (balance : Q) (symbol : string) (price : Q) (stop_loss_price : option Q).

Lemma max_quantity_Return (r : Q) :
  max_quantity cfg client balance symbol price stop_loss_price = Return r ->
  r = 0 /\ stop_guard cfg price stop_loss_price.
Proof.
  unfold max_quantity, stop_guard.
  destruct stop_loss_price as [sl|].
  - destruct (truthy sl) eqn:Et; cbn [andb].
    + destruct (USE_STOP_LOSS cfg) eqn:Eu.
      * destruct (Qle_bool (Qabs (price - sl)) 0) eqn:Ed.
        -- intros [= <-]. split; [reflexivity|]. exists sl.
           apply truthy_true in Et. apply Qle_bool_iff in Ed.
           repeat split; try assumption; try reflexivity.
           destruct (Qeq_dec sl price) as [|Hne]; [assumption|].
           assert (0 < Qabs (price - sl)) by (apply Qabs_nonzero_pos; lra). lra.
        -- unfold py_div. destruct (Qeq_bool _ _); discriminate.
      * unfold py_div. destruct (Qeq_bool _ _); discriminate.
    + unfold py_div. destruct (Qeq_bool _ _); discriminate.
  - unfold py_div. destruct (Qeq_bool _ _); discriminate.
Qed.

Lemma max_quantity_guard :
  stop_guard cfg price stop_loss_price ->
  max_quantity cfg client balance symbol price stop_loss_price = Return 0.
Proof.
  intros (sl & -> & Hsl & Huse & Heq). unfold max_quantity.
  apply truthy_true in Hsl. rewrite Hsl, Huse. cbn [andb].
  assert (Hd : Qabs (price - sl) <= 0) by (rewrite Qabs_zero; lra).
  apply Qle_bool_iff in Hd. rewrite Hd. reflexivity.
Qed.

(** With a positive price [max_quantity] never raises. *)
Lemma max_quantity_total :
  0 < price ->
  (exists maxq, max_quantity cfg client balance symbol price stop_loss_price
                = Next maxq)
  \/ max_quantity cfg client balance symbol price stop_loss_price = Return 0.
Proof.
  intros Hprice.
  assert (Hnot : forall x, py_div x price = Ok (x / price))
    by (intros x; apply py_div_nonzero; lra).
  unfold max_quantity. rewrite Hnot. cbn [lift].
  destruct stop_loss_price as [sl|]; [|left; eexists; reflexivity].
  destruct (truthy sl && USE_STOP_LOSS cfg); [|left; eexists; reflexivity].
  destruct (Qle_bool (Qabs (price - sl)) 0) eqn:Ed; [right; reflexivity|].
  apply Qle_bool_gt in Ed. rewrite py_div_nonzero by lra.
  left. eexists. reflexivity.
Qed.

(** Inversion of a call that returns: which path produced the quantity. *)
Lemma position_size_body_inv (q : Q) :
  run (position_size_body cfg client balance symbol price stop_loss_price) = Ok q ->
  (balance <= 0 /\ q = 0)
  \/ (0 < balance /\ get_symbol_info client symbol = None /\ q = 0)
  \/ (0 < balance /\ is_Some (get_symbol_info client symbol)
      /\ stop_guard cfg price stop_loss_price /\ q = 0)
  \/ exists symbol_info maxq floored,
       0 < balance
       /\ get_symbol_info client symbol = Some symbol_info
       /\ max_quantity cfg client balance symbol price stop_loss_price = Next maxq
       /\ 0 < min_qty symbol_info
       /\ floored == inject_Z (Qfloor (maxq * pow10 (round_neg_log10 (min_qty symbol_info))))
                     * pow10 (- round_neg_log10 (min_qty symbol_info))
       /\ floored <= maxq
       /\ ((min_notional symbol_info <= floored * price /\ q == floored)
           \/ (floored * price < min_notional symbol_info /\ ~ price == 0
               /\ min_notional symbol_info / price <= maxq
               /\ q = inject_Z (Qceiling (min_notional symbol_info / price
                                          * pow10 (quantity_precision symbol_info)))
                      / pow10 (quantity_precision symbol_info))
           \/ (floored * price < min_notional symbol_info /\ ~ price == 0
               /\ maxq < min_notional symbol_info / price /\ q = 0)).
Proof.
  unfold position_size_body.
  destruct (Qle_bool balance 0) eqn:Eb.
  { apply Qle_bool_iff in Eb. intros [= <-]. left. auto. }
  apply Qle_bool_gt in Eb.
  destruct (get_symbol_info client symbol) as [si|] eqn:Ei.
  2: { intros [= <-]. right; left. auto. }
  destruct (max_quantity cfg client balance symbol price stop_loss_price)
    as [maxq | r | e] eqn:Em; cbn [mbind flow_bind run].
  2: { intros [= <-]. apply max_quantity_Return in Em as [-> Hg].
       right; right; left. repeat split; eauto. }
  2: { discriminate. }
  rewrite get_step_size_id.
  destruct (Qlt_le_dec 0 (min_qty si)) as [Hstep | Hstep].
  2: { rewrite round_step_size_Raise by exact Hstep. discriminate. }
  destruct (round_step_size_Ok maxq (min_qty si) Hstep) as (fl & -> & Hfl & Hle).
  cbn [lift mbind flow_bind].
  intros Hrun. right; right; right. exists si, maxq, fl.
  do 6 (split; [first [assumption | reflexivity]|]).
  destruct (Qltb (fl * price) (min_notional si)) eqn:En.
  - apply Qltb_lt in En. unfold py_div in Hrun.
    destruct (Qeq_bool price 0) eqn:Ep; [discriminate|].
    apply Qeq_bool_neq in Ep. cbn [lift mbind flow_bind] in Hrun.
    destruct (Qle_bool (min_notional si / price) maxq) eqn:Ebound.
    + apply Qle_bool_iff in Ebound. injection Hrun as <-.
      right; left. auto.
    + apply Qle_bool_gt in Ebound. injection Hrun as <-.
      right; right. auto.
  - apply Qltb_ge in En. injection Hrun as <-. left. split; [assumption|reflexivity].
Qed.

End Body.

(** [ceil(x * 10**n) / 10**n] is not below [x]. *)
Lemma ceil_to_precision_ge (x : Q) (n : Z) :
  x <= inject_Z (Qceiling (x * pow10 n)) / pow10 n.
Proof.
  pose proof (Qle_ceiling (x * pow10 n)) as Hc.
  pose proof (pow10_pos n) as Ht.
  apply Qle_shift_div_l; assumption.
Qed.


(** [floor(x * 10**n) / 10**n] is less than one unit below [x]. *)
Lemma floor_to_precision_gt (x : Q) (n : Z) :
  x < inject_Z (Qfloor (x * pow10 n)) * pow10 (- n) + pow10 (- n).
Proof.
  pose proof (Qlt_floor (x * pow10 n)) as Hlt.
  rewrite inject_Z_plus in Hlt. change (inject_Z 1) with 1 in Hlt.
  pose proof (pow10_pos (- n)) as Hi. pose proof (pow10_opp n) as Ho.
  assert (Hti : pow10 n * pow10 (- n) == 1)
    by (rewrite Ho; apply Qmult_inv_r, pow10_nonzero).
  set (t := pow10 n) in *. set (i := pow10 (- n)) in *.
  set (z := inject_Z (Qfloor (x * t))) in *.
  assert (Hq : x * t * i == x).
  { transitivity (x * (t * i)); [ring | rewrite Hti; ring]. }
  assert (0 < (z + 1 - x * t) * i) by (apply Qmult_lt_0_compat; lra).
  lra.
Qed.

(** With a positive price and positive instrument limits the body returns. *)
Lemma position_size_body_total (cfg : Config) (client : Client) (balance : Q)
    (symbol : string) (price : Q) (stop_loss_price : option Q) :
  0 < price ->
  (forall symbol_info, get_symbol_info client symbol = Some symbol_info ->
     0 < min_qty symbol_info) ->
  exists q,
    run (position_size_body cfg client balance symbol price stop_loss_price) = Ok q.
Proof.
  intros Hprice Hinfo. unfold position_size_body.
  destruct (Qle_bool balance 0); [eexists; reflexivity|].
  destruct (get_symbol_info client symbol) as [si|]; [|eexists; reflexivity].
  destruct (max_quantity_total cfg client balance symbol price stop_loss_price Hprice)
    as [[maxq ->] | ->]; [|eexists; reflexivity].
  cbn [mbind flow_bind]. rewrite get_step_size_id.
  destruct (round_step_size_Ok maxq (min_qty si) (Hinfo si eq_refl))
    as (fl & -> & _ & _).
  cbn [lift mbind flow_bind]. rewrite py_div_nonzero by (intros E; lra).
  cbn [lift mbind flow_bind].
  destruct (Qltb (fl * price) (min_notional si)); [|eexists; reflexivity].
  destruct (Qle_bool (min_notional si / price) maxq); eexists; reflexivity.
Qed.




(** C2 as stated fails for a stop price at a negligible but nonzero distance:
    with the stop [2^-30] (less than a billionth) below a price of 100 the
    guard does not fire, and the call returns [10 * 2^30] units, more than
    ten billion, instead of 0. *)
Lemma near_zero_stop_distance_counterexample :
  let client := Fixtures.client 1000 (Some Fixtures.milli) None in
  let stop := 100 - (1 # 1073741824) in
  USE_STOP_LOSS Fixtures.cfg = true
  /\ Qabs (100 - stop) == 1 # 1073741824
  /\ exists q,
       fst (calculate_position_size Fixtures.cfg client new_RiskManager
              "BTCUSDT" "BUY" 100 (Some stop)) = Ok q
       /\ q == 10737418240
       /\ ~ q == 0.
Proof.
  cbv zeta. split; [reflexivity|]. split; [reflexivity|].
  eexists. split; [vm_compute; reflexivity|].
  split; [reflexivity | intros H; vm_compute in H; discriminate].
Qed.

(** The first three failure cases return 0 whatever the other inputs. *)
Lemma zero_quantity_early (cfg : Config) (client : Client) (balance : Q)
    (symbol : string) (price : Q) (stop_loss_price : option Q) :
  balance <= 0
  \/ get_symbol_info client symbol = None
  \/ stop_guard cfg price stop_loss_price ->
  run (position_size_body cfg client balance symbol price stop_loss_price) = Ok 0.
Proof.
  intros Hcase. unfold position_size_body.
  destruct (Qle_bool balance 0) eqn:Eb; [reflexivity|].
  apply Qle_bool_gt in Eb.
  destruct (get_symbol_info client symbol) as [si|]; [|reflexivity].
  destruct Hcase as [Hb | [Hn | Hg]]; [lra | discriminate |].
  rewrite (max_quantity_guard cfg client balance symbol price stop_loss_price Hg).
  reflexivity.
Qed.

(** C2, amended: the call returns 0, without raising, whenever the balance
    is at most 0, or the symbol metadata is unavailable, or the stop-loss
    feature is enabled and a nonzero stop price equal to the price is
    supplied (a distance of exactly zero).  For a positive price and an
    instrument whose minimum quantity and minimum notional are positive, the
    call never raises; it returns 0 whenever the minimum notional per unit
    price exceeds the quantity computed before precision; and it returns 0
    only in one of the three cases above or when the minimum notional cannot
    be reached without exceeding the quantity computed before precision, that
    is when every multiple of [10^-quantity_precision] whose notional reaches
    the minimum notional is above that quantity.  Between the two, when the
    minimum notional per unit price fits under the quantity computed before
    precision but its rounding up does not, nothing is stated. *)
Theorem zero_quantity_cases (cfg : Config) (client : Client) (self : RiskManager)
    (symbol side : string) (price : Q) (stop_loss_price : option Q) :
  let returned :=
    fst (calculate_position_size cfg client self symbol side price stop_loss_price) in
  (get_account_balance client <= 0
   \/ get_symbol_info client symbol = None
   \/ stop_guard cfg price stop_loss_price ->
   returned = Ok 0)
  /\ (0 < price ->
      (forall symbol_info, get_symbol_info client symbol = Some symbol_info ->
         0 < min_qty symbol_info /\ 0 < min_notional symbol_info) ->
      exists q,
        returned = Ok q
        /\ ((exists symbol_info maxq,
               get_symbol_info client symbol = Some symbol_info
               /\ max_quantity cfg client (get_account_balance client) symbol price
                    stop_loss_price = Next maxq
               /\ maxq < min_notional symbol_info / price) ->
            q == 0)
        /\ (q == 0 ->
            get_account_balance client <= 0
            \/ get_symbol_info client symbol = None
            \/ stop_guard cfg price stop_loss_price
            \/ exists symbol_info maxq,
                 get_symbol_info client symbol = Some symbol_info
                 /\ max_quantity cfg client (get_account_balance client) symbol price
                      stop_loss_price = Next maxq
                 /\ forall k : Z,
                      min_notional symbol_info
                      <= inject_Z k * pow10 (- quantity_precision symbol_info) * price ->
                      maxq < inject_Z k * pow10 (- quantity_precision symbol_info))).
Proof.
  cbv zeta. unfold calculate_position_size. cbn [fst].
  split; [apply zero_quantity_early|].
  intros Hprice Hvalid.
  set (balance := get_account_balance client).
  destruct (position_size_body_total cfg client balance symbol price stop_loss_price
              Hprice (fun si H => proj1 (Hvalid si H))) as [q Hrun].
  exists q. split; [exact Hrun|].
  apply position_size_body_inv in Hrun
    as [[Hb ->] | [(Hb & Hn & ->) | [(Hb & Hs & Hg & ->) | Hcase]]].
  - split; [reflexivity | left; exact Hb].
  - split; [reflexivity | right; left; exact Hn].
  - split; [reflexivity | right; right; left; exact Hg].
  - destruct Hcase as (si & maxq & fl & Hbal & Hsi & Hmq & Hstep & Hfl & Hle & Hcase).
    destruct (Hvalid si Hsi) as [_ Hmn].
    assert (Hd : min_notional si / price * price == min_notional si)
      by (field; intros E; lra).
    assert (Hsame : forall (P : Prop),
      (maxq < min_notional si / price -> P) ->
      (exists symbol_info maxq',
         get_symbol_info client symbol = Some symbol_info
         /\ max_quantity cfg client balance symbol price stop_loss_price
            = Next maxq'
         /\ maxq' < min_notional symbol_info / price) -> P).
    { intros P HP (si' & maxq' & Hsi' & Hmq' & Hlt).
      rewrite Hsi in Hsi'. injection Hsi' as <-.
      rewrite Hmq in Hmq'. injection Hmq' as <-.
      exact (HP Hlt). }
    set (d := min_notional si / price) in *.
    destruct Hcase as [[Hnot Hqfl] | [(Hlt & Hp & Hbound & Hq) | (Hlt & Hp & Hbound & ->)]].
    + split.
      * apply Hsame. intros Hlt. exfalso.
        assert (0 <= (maxq - fl) * price) by (apply Qmult_le_0_compat; lra).
        assert (0 < (d - maxq) * price) by (apply Qmult_lt_0_compat; lra).
        lra.
      * intros Hz. exfalso. rewrite Hqfl in Hz. rewrite Hz in Hnot. lra.
    + pose proof (ceil_to_precision_ge d (quantity_precision si)) as Hge.
      rewrite <- Hq in Hge.
      assert (Hdpos : 0 < d).
      { destruct (Qlt_le_dec 0 d) as [|Hle0]; [assumption|]. exfalso.
        assert (0 <= (0 - d) * price) by (apply Qmult_le_0_compat; lra). lra. }
      split.
      * apply Hsame. intros Hlt'. lra.
      * intros Hz. lra.
    + split; [reflexivity|]. intros _.
      right; right; right. exists si, maxq.
      split; [exact Hsi|]. split; [exact Hmq|].
      intros k Hk.
      set (g := inject_Z k * pow10 (- quantity_precision si)) in *.
      destruct (Qlt_le_dec maxq g) as [|Hgle]; [assumption|]. exfalso.
      assert (0 < (d - g) * price) by (apply Qmult_lt_0_compat; lra).
      lra.
Qed.

Lemma zero_quantity_cases_witness :
  fst (calculate_position_size Fixtures.cfg
         (Fixtures.client 1000 (Some Fixtures.milli) None) new_RiskManager
         "BTCUSDT" "BUY" 100 (Some 100)) = Ok 0
  /\ (exists q,
        fst (calculate_position_size Fixtures.cfg
               (Fixtures.client 2 (Some Fixtures.milli) None) new_RiskManager
               "BTCUSDT" "BUY" 100 None) = Ok q
        /\ q == 0)
  /\ (exists q,
        fst (calculate_position_size Fixtures.cfg
               (Fixtures.client 1000 (Some Fixtures.milli) None) new_RiskManager
               "BTCUSDT" "BUY" 100 None) = Ok q
        /\ ~ q == 0).
Proof.
  split; [|split].
  - apply (proj1 (zero_quantity_cases Fixtures.cfg
                    (Fixtures.client 1000 (Some Fixtures.milli) None)
                    new_RiskManager "BTCUSDT" "BUY" 100 (Some 100))).
    right; right. exists 100.
    repeat split; try reflexivity. intros H; vm_compute in H; discriminate.
  - destruct (proj2 (zero_quantity_cases Fixtures.cfg
                       (Fixtures.client 2 (Some Fixtures.milli) None)
                       new_RiskManager "BTCUSDT" "BUY" 100 None))
      as (q & Hq & Hzero & _).
    + reflexivity.
    + intros si [= <-]. split; reflexivity.
    + exists q. split; [exact Hq|]. apply Hzero.
      exists Fixtures.milli. eexists.
      split; [reflexivity|]. split; [vm_compute; reflexivity|].
      reflexivity.
  - destruct (proj2 (zero_quantity_cases Fixtures.cfg
                       (Fixtures.client 1000 (Some Fixtures.milli) None)
                       new_RiskManager "BTCUSDT" "BUY" 100 None))
      as (q & Hq & _ & Hcases).
    + reflexivity.
    + intros si [= <-]. split; reflexivity.
    + exists q. split; [exact Hq|]. intros Hz.
      destruct (Hcases Hz) as [Hb | [Hn | [Hg | (si & maxq & Hsi & Hmq & Hall)]]].
      * vm_compute in Hb. apply Hb. reflexivity.
      * discriminate.
      * destruct Hg as (sl & Hsl & _). discriminate.
      * injection Hsi as <-. vm_compute in Hmq. injection Hmq as <-.
        assert (Hreach : min_notional Fixtures.milli
                         <= inject_Z 50 * pow10 (- quantity_precision Fixtures.milli)
                            * 100)
          by (vm_compute; intros E; discriminate E).
        apply Hall in Hreach. vm_compute in Hreach. discriminate Hreach.
Defined.

(** C3 as stated fails for a supplied stop price of zero with the feature
    enabled: with 10x leverage the code sizes by the notional rule (1 unit),
    not by [balance * risk / |price - stop|] (0.1 unit). *)
Lemma sizing_rule_zero_stop_counterexample :
  let client := Fixtures.client 1000 (Some Fixtures.milli) (Some Fixtures.long10) in
  USE_STOP_LOSS Fixtures.cfg = true
  /\ max_quantity Fixtures.cfg client 1000 "BTCUSDT" 100 (Some 0)
     = Next (1000 * (1 # 100) * 10 / 100)
  /\ ~ 1000 * (1 # 100) * 10 / 100 == 1000 * (1 # 100) / Qabs (100 - 0)
  /\ exists q,
       fst (calculate_position_size Fixtures.cfg client new_RiskManager
              "BTCUSDT" "BUY" 100 (Some 0)) = Ok q
       /\ q == 1.
Proof.
  cbv zeta. split; [reflexivity|]. split; [reflexivity|].
  split; [intros H; vm_compute in H; discriminate|].
  eexists. split; [vm_compute; reflexivity | reflexivity].
Qed.

(** C3, amended: a supplied stop price that is not zero, with the feature
    enabled and a nonzero distance to the price, gives
    [balance * risk / |price - stop|]; an absent or zero stop price, or a
    disabled feature, gives [balance * risk * leverage / price], where the
    leverage is the reported one or 1 without position data. *)
Theorem sizing_rule (cfg : Config) (client : Client) (balance : Q)
    (symbol : string) (price : Q) (stop_loss_price : option Q) :
  (forall sl, stop_loss_price = Some sl ->
     ~ sl == 0 -> USE_STOP_LOSS cfg = true -> ~ sl == price ->
     max_quantity cfg client balance symbol price stop_loss_price
     = Next (balance * RISK_PER_TRADE cfg / Qabs (price - sl)))
  /\ (stop_loss_price = None
      \/ (exists sl, stop_loss_price = Some sl /\ sl == 0)
      \/ USE_STOP_LOSS cfg = false ->
      ~ price == 0 ->
      max_quantity cfg client balance symbol price stop_loss_price
      = Next (balance * RISK_PER_TRADE cfg * get_current_leverage client symbol
              / price))
  /\ get_current_leverage client symbol
     = match get_position_info client symbol with
       | Some position_info => leverage position_info
       | None => 1
       end.
Proof.
  split; [|split; [|reflexivity]].
  - intros sl -> Hsl Huse Hne. apply max_quantity_risk_based; assumption.
  - intros Hcase Hprice. rewrite max_quantity_notional.
    + rewrite py_div_nonzero by exact Hprice. reflexivity.
    + destruct stop_loss_price as [sl|]; [|exact I].
      destruct Hcase as [Hnone | [(sl' & Heq & Hz) | Hoff]].
      * discriminate.
      * injection Heq as <-. apply truthy_false in Hz. rewrite Hz. reflexivity.
      * rewrite Hoff. apply andb_false_r.
Qed.

Lemma sizing_rule_witness :
  max_quantity Fixtures.cfg (Fixtures.client 1000 (Some Fixtures.milli) None)
    1000 "BTCUSDT" 100 (Some 98)
  = Next (1000 * (1 # 100) / Qabs (100 - 98))
  /\ max_quantity Fixtures.cfg
       (Fixtures.client 1000 (Some Fixtures.milli) (Some Fixtures.long10))
       1000 "BTCUSDT" 100 None
     = Next (1000 * (1 # 100) * 10 / 100).
Proof.
  split.
  - apply (proj1 (sizing_rule Fixtures.cfg
                    (Fixtures.client 1000 (Some Fixtures.milli) None)
                    1000 "BTCUSDT" 100 (Some 98)) 98).
    + reflexivity.
    + intros H; vm_compute in H; discriminate.
    + reflexivity.
    + intros H; vm_compute in H; discriminate.
  - apply (proj1 (proj2 (sizing_rule Fixtures.cfg
                    (Fixtures.client 1000 (Some Fixtures.milli)
                       (Some Fixtures.long10))
                    1000 "BTCUSDT" 100 None))).
    + left. reflexivity.
    + intros H; vm_compute in H; discriminate.
Defined.

(** C10: a stop price of zero is treated as absent, whether or not the
    feature is enabled.  The call is the call without a stop price, and the
    quantity before precision is the leveraged notional quantity
    [balance * risk * leverage / price].  Where the stop distance guard would
    have returned its zero sentinel, at a price of zero, the call raises
    [ZeroDivisionError] from the notional division instead.  For a positive
    price the call returns a quantity sized from the notional quantity: when
    the notional quantity, less two grid units, has a notional of at least
    the minimum notional, the returned quantity is a multiple of
    [10^-precision] less than two units below and less than one above the
    notional quantity, with a notional of at least the minimum notional; and
    when the notional quantity is below the minimum notional per unit price,
    it is 0. *)
Theorem zero_stop_is_absent (cfg : Config) (client : Client) (self : RiskManager)
    (symbol side : string) (price sl : Q) :
  sl == 0 ->
  let balance := get_account_balance client in
  let notional :=
    balance * RISK_PER_TRADE cfg * get_current_leverage client symbol / price in
  let returned :=
    fst (calculate_position_size cfg client self symbol side price (Some sl)) in
  calculate_position_size cfg client self symbol side price (Some sl)
  = calculate_position_size cfg client self symbol side price None
  /\ (~ price == 0 ->
      max_quantity cfg client balance symbol price (Some sl) = Next notional)
  /\ (0 < balance -> is_Some (get_symbol_info client symbol) -> price == 0 ->
      returned = Raise ZeroDivisionError)
  /\ (forall symbol_info,
        0 < balance ->
        get_symbol_info client symbol = Some symbol_info ->
        0 < min_qty symbol_info ->
        0 < price ->
        let unit := pow10 (- round_neg_log10 (min_qty symbol_info)) in
        exists q,
          returned = Ok q
          /\ (min_notional symbol_info <= (notional - 2 * unit) * price ->
              (exists k : Z, q == inject_Z k * unit)
              /\ notional - 2 * unit < q
              /\ q < notional + unit
              /\ min_notional symbol_info <= q * price)
          /\ (notional < min_notional symbol_info / price -> q == 0)).
Proof.
  intros Hz. cbv zeta. apply truthy_false in Hz.
  assert (Hmq : forall balance,
    max_quantity cfg client balance symbol price (Some sl)
    = lift (py_div (balance * RISK_PER_TRADE cfg * get_current_leverage client symbol)
              price)).
  { intros balance. unfold max_quantity. rewrite Hz. reflexivity. }
  assert (Hnone : forall balance,
    max_quantity cfg client balance symbol price (Some sl)
    = max_quantity cfg client balance symbol price None).
  { intros balance. unfold max_quantity. rewrite Hz. reflexivity. }
  split; [|split; [|split]].
  - unfold calculate_position_size, position_size_body.
    rewrite Hnone. reflexivity.
  - intros Hprice. rewrite Hmq, py_div_nonzero by exact Hprice. reflexivity.
  - intros Hbal [si Hsi] Hprice.
    unfold calculate_position_size, position_size_body. cbn [fst].
    apply Qle_bool_gt in Hbal. rewrite Hbal, Hsi, Hmq.
    rewrite !py_div_zero by exact Hprice. reflexivity.
  - intros si Hbal Hsi Hstep Hprice.
    unfold calculate_position_size. cbn [fst].
    set (balance := get_account_balance client) in *.
    destruct (position_size_body_total cfg client balance symbol price (Some sl)
                Hprice) as [q Hrun].
    { intros si' Hsi'. rewrite Hsi in Hsi'. injection Hsi' as <-. exact Hstep. }
    exists q. split; [exact Hrun|].
    apply position_size_body_inv in Hrun
      as [[Hb _] | [(_ & Hn & _) | [(_ & _ & Hg & _) | Hcase]]].
    + lra.
    + rewrite Hsi in Hn. discriminate.
    + apply (max_quantity_guard cfg client balance symbol) in Hg.
      rewrite Hmq, py_div_nonzero in Hg by (intros E; lra). discriminate.
    + destruct Hcase as (si' & maxq & fl & _ & Hsi' & Hmaxq & _ & Hfl & Hle & Hcase).
      rewrite Hsi in Hsi'. injection Hsi' as <-.
      rewrite Hmq, py_div_nonzero in Hmaxq by (intros E; lra).
      cbn [lift] in Hmaxq. injection Hmaxq as <-.
      pose proof (floor_to_precision_gt
                    (balance * RISK_PER_TRADE cfg * get_current_leverage client symbol
                     / price)
                    (round_neg_log10 (min_qty si))) as Hgt.
      rewrite <- Hfl in Hgt.
      pose proof (pow10_pos (- round_neg_log10 (min_qty si))) as Hunit.
      assert (Hd : min_notional si / price * price == min_notional si)
        by (field; intros E; lra).
      set (notional := balance * RISK_PER_TRADE cfg
                       * get_current_leverage client symbol / price) in *.
      set (unit := pow10 (- round_neg_log10 (min_qty si))) in *.
      set (d := min_notional si / price) in *.
      assert (Hshort : fl * price < min_notional si ->
                       min_notional si <= (notional - 2 * unit) * price -> False).
      { intros Hlt Hmargin.
        assert (0 < (fl - (notional - 2 * unit)) * price)
          by (apply Qmult_lt_0_compat; lra).
        lra. }
      assert (Hfits : min_notional si <= fl * price -> notional < d -> False).
      { intros Hnot Hlt.
        assert (0 <= (notional - fl) * price) by (apply Qmult_le_0_compat; lra).
        assert (0 < (d - notional) * price) by (apply Qmult_lt_0_compat; lra).
        lra. }
      destruct Hcase as [[Hnot Hqfl] | [(Hlt & _ & Hbound & _) | (Hlt & _ & _ & ->)]].
      * split.
        -- intros _. split; [eexists; rewrite Hqfl; exact Hfl|].
           rewrite Hqfl. repeat split; lra.
        -- intros Hsmall. exfalso. exact (Hfits Hnot Hsmall).
      * split.
        -- intros Hmargin. exfalso. exact (Hshort Hlt Hmargin).
        -- intros Hsmall. exfalso. lra.
      * split.
        -- intros Hmargin. exfalso. exact (Hshort Hlt Hmargin).
        -- intros _. reflexivity.
Qed.

Lemma zero_stop_is_absent_witness :
  let client := Fixtures.client 1000 (Some Fixtures.milli) (Some Fixtures.long10) in
  (exists q,
     fst (calculate_position_size Fixtures.cfg client new_RiskManager
            "BTCUSDT" "BUY" 100 (Some 0)) = Ok q
     /\ (998 # 1000) < q
     /\ min_notional Fixtures.milli <= q * 100)
  /\ fst (calculate_position_size Fixtures.cfg client new_RiskManager
            "BTCUSDT" "BUY" 0 (Some 0)) = Raise ZeroDivisionError.
Proof.
  cbv zeta. split.
  - destruct (zero_stop_is_absent Fixtures.cfg
                (Fixtures.client 1000 (Some Fixtures.milli) (Some Fixtures.long10))
                new_RiskManager "BTCUSDT" "BUY" 100 0 (Qeq_refl 0))
      as (_ & _ & _ & Hsized).
    destruct (Hsized Fixtures.milli) as (q & Hq & Hfloor & _);
      try reflexivity.
    exists q. split; [exact Hq|].
    destruct Hfloor as (_ & Hlow & _ & Hnot).
    + vm_compute. intros E; discriminate E.
    + split; [|exact Hnot].
      eapply Qle_lt_trans; [|exact Hlow].
      vm_compute. intros E; discriminate E.
  - apply (zero_stop_is_absent Fixtures.cfg
             (Fixtures.client 1000 (Some Fixtures.milli) (Some Fixtures.long10))
             new_RiskManager "BTCUSDT" "BUY" 0 0 (Qeq_refl 0)).
    + reflexivity.
    + eexists. reflexivity.
    + reflexivity.
Defined.

(** ** Stop loss *)

(** C4 as stated fails once the price precision is applied: an entry at 1
    with a 2% stop and one price decimal gives [round(0.98, 1) = 1.0] for a
    long and [round(1.02, 1) = 1.0] for a short, neither strictly on its
    side of the entry price. *)
Lemma stop_loss_rounding_counterexample :
  let info := {| quantity_precision := 0; min_qty := 1;
                 min_notional := 5; price_precision := 1 |} in
  let client := Fixtures.client 1000 (Some info) None in
  USE_STOP_LOSS Fixtures.cfg = true
  /\ 0 < STOP_LOSS_PCT Fixtures.cfg
  /\ (exists stop, calculate_stop_loss Fixtures.cfg client "XRPUSDT" "BUY" 1 = Some stop
                   /\ stop == 1 /\ ~ stop < 1)
  /\ (exists stop, calculate_stop_loss Fixtures.cfg client "XRPUSDT" "SELL" 1 = Some stop
                   /\ stop == 1 /\ ~ 1 < stop).
Proof.
  cbv zeta. split; [reflexivity|]. split; [reflexivity|].
  split; eexists; (split; [vm_compute; reflexivity|]);
    (split; [reflexivity | intros H; vm_compute in H; discriminate]).
Qed.

(** C4, amended: [calculate_stop_loss] returns none when the feature is
    disabled.  When it is enabled with a positive percentage and a positive
    entry price, the price before rounding is strictly below the entry price
    for a long and strictly above it for a short; without symbol metadata
    that price is returned as it is; with metadata the returned price is its
    rounding to the price precision, at most half a unit of the last decimal
    away, and so strictly on the same side of the entry price whenever
    [entry_price * stop_loss_pct] exceeds that half unit. *)
Theorem stop_loss_side (cfg : Config) (client : Client) (symbol side : string)
    (entry_price : Q) :
  (USE_STOP_LOSS cfg = false ->
   calculate_stop_loss cfg client symbol side entry_price = None)
  /\ (USE_STOP_LOSS cfg = true -> 0 < STOP_LOSS_PCT cfg -> 0 < entry_price ->
      let long := String.eqb side "BUY" in
      let raw := if long then entry_price * (1 - STOP_LOSS_PCT cfg)
                 else entry_price * (1 + STOP_LOSS_PCT cfg) in
      (if long then raw < entry_price else entry_price < raw)
      /\ match get_symbol_info client symbol with
         | None => calculate_stop_loss cfg client symbol side entry_price = Some raw
         | Some symbol_info =>
             let stop := py_round raw (price_precision symbol_info) in
             let half := (1 # 2) * pow10 (- price_precision symbol_info) in
             calculate_stop_loss cfg client symbol side entry_price = Some stop
             /\ raw - half <= stop <= raw + half
             /\ (half < entry_price * STOP_LOSS_PCT cfg ->
                 if long then stop < entry_price else entry_price < stop)
         end).
Proof.
  split.
  - intros Hoff. unfold calculate_stop_loss. rewrite Hoff. reflexivity.
  - intros Hon Hpct Hentry. cbv zeta. unfold calculate_stop_loss. rewrite Hon.
    cbn [negb].
    assert (Hprod : 0 < entry_price * STOP_LOSS_PCT cfg)
      by (apply Qmult_lt_0_compat; assumption).
    split.
    + destruct (String.eqb side "BUY"); lra.
    + destruct (get_symbol_info client symbol) as [si|]; [|reflexivity].
      split; [reflexivity|].
      set (raw := if String.eqb side "BUY" then _ else _).
      pose proof (py_round_near raw (price_precision si)) as Hnear.
      split; [exact Hnear|].
      intros Hhalf. subst raw. destruct (String.eqb side "BUY"); lra.
Qed.

Lemma stop_loss_side_witness :
  calculate_stop_loss Fixtures.cfg (Fixtures.client 1000 None None) "BTCUSDT" "BUY" 100
  = Some (100 * (1 - (2 # 100)))
  /\ 100 * (1 - (2 # 100)) < 100.
Proof.
  destruct (stop_loss_side Fixtures.cfg (Fixtures.client 1000 None None)
              "BTCUSDT" "BUY" 100) as [_ H].
  destruct H as [Hside Hret]; [reflexivity | reflexivity | reflexivity |].
  split; [exact Hret | exact Hside].
Defined.

(** ** Trailing stop *)

(** C5 fails in the code: the candidate is compared with the stop computed
    from the entry price, never with the stop in force.  For a long position
    entered at 100 (stop loss 2%, trailing 1%, two price decimals) the stop
    computed from the entry price is 98; the call at a price of 110 returns
    108.9; with that stop in force, the call at a price of 105 returns
    103.95, a candidate below the existing stop, where the claim and the
    comment [Only move stop loss up, never down] ask for none. *)
Theorem trailing_stop_moves_down :
  let client := Fixtures.client 1000 (Some Fixtures.milli) (Some Fixtures.long10) in
  let adjust := adjust_stop_loss_for_trailing Fixtures.cfg client "BTCUSDT" "BUY" in
  exists compared in_force lower,
    calculate_stop_loss Fixtures.cfg client "BTCUSDT" "BUY"
      (entry_price Fixtures.long10) = Some compared
    /\ compared == 98
    /\ adjust 110 None = Some in_force
    /\ in_force == 1089 # 10
    /\ adjust 105 None = Some lower
    /\ lower == 10395 # 100
    /\ 105 * (1 - TRAILING_STOP_PCT Fixtures.cfg) < in_force
    /\ lower < in_force.
Proof.
  cbv zeta. eexists. eexists. eexists.
  split; [vm_compute; reflexivity|]. split; [reflexivity|].
  split; [vm_compute; reflexivity|]. split; [reflexivity|].
  split; [vm_compute; reflexivity|]. split; [reflexivity|].
  split; reflexivity.
Qed.

(** ** Compounding *)

(** C6 as stated fails when a sizing call came first: it initialises the
    trackers, so the very first [update_balance_for_compounding] after a
    balance increase from 100 to 110 returns true. *)
Lemma first_compounding_call_counterexample :
  let sized :=
    calculate_position_size Fixtures.cfg
      (Fixtures.client 100 (Some Fixtures.milli) None) new_RiskManager
      "BTCUSDT" "BUY" 100 None in
  AUTO_COMPOUND Fixtures.cfg = true
  /\ snd sized = {| initial_balance := Some 100; last_known_balance := Some 100 |}
  /\ fst (update_balance_for_compounding Fixtures.cfg
            (Fixtures.client 110 (Some Fixtures.milli) None) (snd sized))
     = true.
Proof. cbv zeta. repeat split; reflexivity. Qed.

(** C6, amended: [update_balance_for_compounding] returns false and changes
    nothing when the feature is disabled.  When it is enabled and the last
    known balance is still unset, as on a new instance on which no position
    was sized before, it returns false and sets both trackers to the
    balance.  When the last known balance is set, by an earlier call of
    either method, it returns true if and only if the balance is strictly
    greater, and then moves the snapshot to the balance and otherwise
    changes nothing. *)
Theorem compounding_flag (cfg : Config) (client : Client) (self : RiskManager) :
  let balance := get_account_balance client in
  (AUTO_COMPOUND cfg = false ->
   update_balance_for_compounding cfg client self = (false, self))
  /\ (AUTO_COMPOUND cfg = true -> last_known_balance self = None ->
      update_balance_for_compounding cfg client self
      = (false, {| initial_balance := Some balance;
                   last_known_balance := Some balance |}))
  /\ (AUTO_COMPOUND cfg = true ->
      update_balance_for_compounding cfg client new_RiskManager
      = (false, {| initial_balance := Some balance;
                   last_known_balance := Some balance |}))
  /\ (AUTO_COMPOUND cfg = true ->
      forall last, last_known_balance self = Some last ->
        (fst (update_balance_for_compounding cfg client self) = true
         <-> last < balance)
        /\ (last < balance ->
            snd (update_balance_for_compounding cfg client self)
            = {| initial_balance := initial_balance self;
                 last_known_balance := Some balance |})
        /\ (balance <= last ->
            snd (update_balance_for_compounding cfg client self) = self)).
Proof.
  cbv zeta. unfold update_balance_for_compounding.
  split; [|split; [|split]].
  - intros ->. reflexivity.
  - intros -> ->. reflexivity.
  - intros ->. reflexivity.
  - intros -> last ->. cbn [negb].
    destruct (Qltb 0 (get_account_balance client - last)) eqn:E.
    + apply Qltb_lt in E. cbn [fst snd].
      split; [split; [intros _; lra | reflexivity]|].
      split; [reflexivity | intros H; lra].
    + apply Qltb_ge in E. cbn [fst snd].
      split; [split; [discriminate | intros H; lra]|].
      split; [intros H; lra | reflexivity].
Qed.

Lemma compounding_flag_witness :
  fst (update_balance_for_compounding Fixtures.cfg
         (Fixtures.client 110 None None)
         {| initial_balance := Some 100; last_known_balance := Some 100 |})
  = true.
Proof.
  destruct (compounding_flag Fixtures.cfg (Fixtures.client 110 None None)
              {| initial_balance := Some 100; last_known_balance := Some 100 |})
    as (_ & _ & _ & H).
  destruct (H eq_refl 100 eq_refl) as [Hiff _].
  apply Hiff. reflexivity.
Defined.

End RiskFacts.

(** ** Strategy signals *)

Module StrategyFacts.
Import PyNum PyNumFacts Strategies.

Lemma iloc_neg_last {A} (pre : list A) (x : A) : iloc_neg (pre ++ [x]) 1 = Ok x.
Proof.
  unfold iloc_neg. rewrite length_app. cbn [length].
  destruct (Nat.ltb_spec (length pre + 1) 1) as [H | _]; [lia|].
  replace (length pre + 1 - 1)%nat with (length pre + 0)%nat by lia.
  rewrite lookup_app_r by lia.
  replace (length pre + 0 - length pre)%nat with 0%nat by lia. reflexivity.
Qed.

Lemma iloc_neg_prev {A} (pre : list A) (x y : A) :
  iloc_neg (pre ++ [x; y]) 2 = Ok x.
Proof.
  unfold iloc_neg. rewrite length_app. cbn [length].
  destruct (Nat.ltb_spec (length pre + 2) 2) as [H | _]; [lia|].
  rewrite lookup_app_r by lia.
  replace (length pre + 2 - 2 - length pre)%nat with 0%nat by lia. reflexivity.
Qed.

Lemma iloc_neg_short {A} (s : list A) (k : nat) :
  (length s < k)%nat -> iloc_neg s k = Raise IndexError.
Proof.
  intros H. unfold iloc_neg. apply Nat.ltb_lt in H. rewrite H. reflexivity.
Qed.

(** The RSI decision reads the last two values of the column only. *)
Lemma rsi_decision_last_two (rsi_overbought rsi_oversold : Q)
    (pre : list (option Q)) (prev last : Q) :
  rsi_decision rsi_overbought rsi_oversold (pre ++ [Some prev; Some last])
  = Ok (if Qltb last rsi_oversold && Qle_bool rsi_oversold prev then BUY
        else if Qltb rsi_overbought last && Qle_bool prev rsi_overbought then SELL
        else NONE).
Proof.
  unfold rsi_decision.
  replace (pre ++ [Some prev; Some last])
    with ((pre ++ [Some prev]) ++ [Some last]) at 1 by (rewrite <- app_assoc; reflexivity).
  rewrite iloc_neg_last, iloc_neg_prev.
  cbn [mbind result_bind flt fge fgt fle].
  repeat match goal with |- context [if ?b then _ else _] => destruct b end;
    reflexivity.
Qed.

(** BUY is emitted exactly on a move from at or above the oversold level to
    below it. *)
Lemma rsi_decision_BUY_iff (rsi_overbought rsi_oversold : Q)
    (pre : list (option Q)) (prev last : Q) :
  rsi_decision rsi_overbought rsi_oversold (pre ++ [Some prev; Some last]) = Ok BUY
  <-> last < rsi_oversold /\ rsi_oversold <= prev.
Proof.
  rewrite rsi_decision_last_two.
  destruct (Qltb last rsi_oversold) eqn:E1; destruct (Qle_bool rsi_oversold prev) eqn:E2;
    cbn [andb].
  - apply Qltb_lt in E1. apply Qle_bool_iff in E2. tauto.
  - apply Qle_bool_gt in E2. split.
    + destruct (_ && _); discriminate.
    + intros [_ H]. lra.
  - apply Qltb_ge in E1. split.
    + destruct (_ && _); discriminate.
    + intros [H _]. lra.
  - apply Qltb_ge in E1. split.
    + destruct (_ && _); discriminate.
    + intros [H _]. lra.
Qed.

(** The column up to bar [i], for a bar with a predecessor. *)
Lemma take_two_last {A} (l : list A) (i : nat) (x y : A) :
  l !! i = Some x -> l !! S i = Some y ->
  take (S (S i)) l = take i l ++ [x; y].
Proof.
  intros Hx Hy. rewrite (take_S_r l (S i) y Hy), (take_S_r l i x Hx).
  rewrite <- app_assoc. reflexivity.
Qed.

(** A column that stays in the band from the oversold to the overbought
    level and then stays below the oversold level: BUY at the first bar
    below, NONE at every other bar. *)
Lemma rsi_cross_below_pointwise (rsi_overbought rsi_oversold : Q)
    (high_part low_part : list Q) (i : nat) :
  rsi_oversold <= rsi_overbought ->
  Forall (fun v => rsi_oversold <= v /\ v <= rsi_overbought) high_part ->
  Forall (fun v => v < rsi_oversold) low_part ->
  (S i < length (high_part ++ low_part))%nat ->
  rsi_decision rsi_overbought rsi_oversold
    (take (S (S i)) (Some <$> (high_part ++ low_part)))
  = Ok (if (S i =? length high_part)%nat then BUY else NONE).
Proof.
  intros Hlevels Hhigh Hlow Hi.
  destruct (lookup_lt_is_Some_2 (high_part ++ low_part) i ltac:(lia)) as [x Hx].
  destruct (lookup_lt_is_Some_2 (high_part ++ low_part) (S i) Hi) as [y Hy].
  rewrite (take_two_last _ i (Some x) (Some y))
    by (rewrite list_lookup_fmap; first [rewrite Hx | rewrite Hy]; reflexivity).
  rewrite rsi_decision_last_two.
  assert (Hclass : forall j v, (high_part ++ low_part) !! j = Some v ->
            if (j <? length high_part)%nat
            then rsi_oversold <= v /\ v <= rsi_overbought
            else v < rsi_oversold).
  { intros j v Hv. destruct (Nat.ltb_spec j (length high_part)) as [Hj | Hj].
    - rewrite lookup_app_l in Hv by exact Hj.
      apply (Forall_lookup_1 _ _ _ _ Hhigh Hv).
    - rewrite lookup_app_r in Hv by exact Hj.
      apply (Forall_lookup_1 _ _ _ _ Hlow Hv). }
  pose proof (Hclass i x Hx) as Cx. pose proof (Hclass (S i) y Hy) as Cy.
  destruct (Nat.eqb_spec (S i) (length high_part)) as [Heq | Hne].
  - destruct (Nat.ltb_spec i (length high_part)); [|lia].
    destruct (Nat.ltb_spec (S i) (length high_part)); [lia|].
    destruct Cx as [Cx _].
    apply Qltb_lt in Cy. apply Qle_bool_iff in Cx. rewrite Cy, Cx. reflexivity.
  - destruct (Nat.ltb_spec (S i) (length high_part)).
    + destruct (Nat.ltb_spec i (length high_part)); [|lia].
      destruct Cy as [Cy1 Cy2].
      apply Qltb_ge in Cy1. rewrite Cy1. cbn [andb].
      assert (E : Qltb rsi_overbought y = false) by (apply Qltb_ge; lra).
      rewrite E. reflexivity.
    + destruct (Nat.ltb_spec i (length high_part)); [lia|].
      assert (E1 : Qle_bool rsi_oversold x = false) by (apply Qle_bool_gt; lra).
      assert (E2 : Qltb rsi_overbought y = false) by (apply Qltb_ge; lra).
      rewrite E1, E2, andb_false_r. reflexivity.
Qed.

(** The signals bar after bar for such a column. *)
Lemma rsi_signals_cross_below (rsi_overbought rsi_oversold : Q)
    (high_part low_part : list Q) :
  rsi_oversold <= rsi_overbought ->
  Forall (fun v => rsi_oversold <= v /\ v <= rsi_overbought) high_part ->
  Forall (fun v => v < rsi_oversold) low_part ->
  (0 < length high_part)%nat -> (0 < length low_part)%nat ->
  rsi_signals_along rsi_overbought rsi_oversold (Some <$> (high_part ++ low_part))
  = replicate (length high_part - 1) (Ok NONE) ++ [Ok BUY]
    ++ replicate (length low_part - 1) (Ok NONE).
Proof.
  intros Hlevels Hhigh Hlow Hh Hl. apply list_eq. intros j.
  unfold rsi_signals_along. rewrite list_lookup_fmap, length_fmap, length_app.
  destruct (Nat.lt_ge_cases j (length high_part + length low_part - 1)) as [Hj | Hj].
  - rewrite lookup_seq_lt by exact Hj. cbn [fmap option_fmap option_map].
    replace (1 + j)%nat with (S j) by lia.
    rewrite rsi_cross_below_pointwise
      by (try assumption; rewrite length_app; lia).
    destruct (Nat.eqb_spec (S j) (length high_part)) as [Heq | Hne].
    + rewrite lookup_app_r by (rewrite length_replicate; lia).
      rewrite length_replicate.
      replace (j - (length high_part - 1))%nat with 0%nat by lia. reflexivity.
    + destruct (Nat.lt_ge_cases (S j) (length high_part)) as [Hlt | Hge].
      * rewrite lookup_app_l by (rewrite length_replicate; lia).
        rewrite lookup_replicate_2 by lia. reflexivity.
      * rewrite lookup_app_r by (rewrite length_replicate; lia).
        rewrite length_replicate.
        rewrite lookup_app_r by (cbn [length]; lia). cbn [length].
        rewrite lookup_replicate_2 by lia. reflexivity.
  - rewrite lookup_seq_ge by exact Hj. cbn [fmap option_fmap option_map].
    symmetry. apply lookup_ge_None_2.
    rewrite !length_app, !length_replicate. cbn [length]. lia.
Qed.

(** C7 as stated fails: on the move from 25 to 32 the code emits no BUY
    at all, neither on the decision function nor through [get_signal]. *)
Lemma rsi_upward_move_counterexample :
  let rsi := [Some 20; Some 25; Some 32; Some 35] in
  RSI_OVERSOLD Fixtures.cfg == 30
  /\ rsi_signals_along (RSI_OVERBOUGHT Fixtures.cfg) (RSI_OVERSOLD Fixtures.cfg) rsi
     = [Ok NONE; Ok NONE; Ok NONE]
  /\ get_signal (Fixtures.column rsi) (Fixtures.column []) Fixtures.no_band
       Fixtures.no_band (new_RSIStrategy Fixtures.cfg) (take 3 Fixtures.four_bars)
     = Ok NONE.
Proof. cbv zeta. repeat split; vm_compute; reflexivity. Qed.

(** C7, amended: for a bar sequence in which the RSI moves from 32 on the
    previous bar to 25 on the current bar, crossing below the oversold
    threshold 30, having stayed between 30 and the overbought level before
    and staying below 30 after, the decision of the RSI strategy is BUY
    exactly once, on the transition bar, and NONE on the bars before and
    after; on a move from 25 up to 32 it is NONE; and [get_signal] is this
    decision on the RSI column of the bars. *)
Theorem rsi_buy_on_cross_below (rsi_overbought : Q) (before after : list Q) :
  32 <= rsi_overbought ->
  Forall (fun v => 30 <= v /\ v <= rsi_overbought) before ->
  Forall (fun v => v < 30) after ->
  rsi_signals_along rsi_overbought 30 (Some <$> (before ++ [32; 25] ++ after))
  = replicate (length before) (Ok NONE) ++ [Ok BUY]
    ++ replicate (length after) (Ok NONE)
  /\ (forall pre, rsi_decision rsi_overbought 30 (pre ++ [Some 25; Some 32]) = Ok NONE)
  /\ (forall RSIIndicator EMAIndicator bollinger_hband bollinger_lband
             rsi_period klines,
        get_signal RSIIndicator EMAIndicator bollinger_hband bollinger_lband
          (RSIStrategy rsi_period rsi_overbought 30) klines
        = rsi_decision rsi_overbought 30
            (RSIIndicator (prepare_data klines) rsi_period)).
Proof.
  intros Hob Hbefore Hafter. split; [|split].
  - replace (before ++ [32; 25] ++ after)
      with ((before ++ [32]) ++ 25 :: after)
      by (rewrite <- app_assoc; reflexivity).
    rewrite rsi_signals_cross_below.
    + rewrite length_app. cbn [length].
      replace (length before + 1 - 1)%nat with (length before) by lia.
      replace (S (length after) - 1)%nat with (length after) by lia.
      reflexivity.
    + lra.
    + apply Forall_app. split; [exact Hbefore|].
      apply Forall_cons. split; [lra | apply Forall_nil_2].
    + apply Forall_cons. split; [reflexivity | exact Hafter].
    + rewrite length_app. cbn [length]. lia.
    + cbn [length]. lia.
  - intros pre. rewrite rsi_decision_last_two.
    assert (E1 : Qltb 32 30 = false) by reflexivity.
    assert (E2 : Qltb rsi_overbought 32 = false) by (apply Qltb_ge; exact Hob).
    rewrite E1, E2. reflexivity.
  - reflexivity.
Qed.

Lemma rsi_buy_on_cross_below_witness :
  rsi_signals_along 70 30 (Some <$> ([45; 38] ++ [32; 25] ++ [22]))
  = [Ok NONE; Ok NONE; Ok BUY; Ok NONE].
Proof.
  apply (proj1 (rsi_buy_on_cross_below 70 [45; 38] [22]
                  ltac:(vm_compute; discriminate)
                  ltac:(repeat constructor; vm_compute; discriminate)
                  ltac:(repeat constructor))).
Defined.

Section Composite.
Context (RSIIndicator EMAIndicator : list Q -> Z -> list (option Q)).
Context (bollinger_hband bollinger_lband : list Q -> Z -> Q -> list (option Q)).

(** C8: the composite emits BUY exactly when the RSI sub-signal is BUY and
    the EMA sub-signal is BUY or NONE, SELL exactly when the RSI sub-signal
    is SELL and the EMA sub-signal is SELL or NONE, and NONE in every other
    case, in particular for RSI = BUY with EMA = SELL. *)
Theorem composite_signal (rsi_strategy ema_strategy : Strategy)
    (klines : list Kline) (rsi_signal ema_signal : Signal) :
  get_signal RSIIndicator EMAIndicator bollinger_hband bollinger_lband
    rsi_strategy klines = Ok rsi_signal ->
  get_signal RSIIndicator EMAIndicator bollinger_hband bollinger_lband
    ema_strategy klines = Ok ema_signal ->
  exists signal,
    get_signal RSIIndicator EMAIndicator bollinger_hband bollinger_lband
      (RSIEMAStrategy rsi_strategy ema_strategy) klines = Ok signal
    /\ (signal = BUY <-> rsi_signal = BUY /\ (ema_signal = BUY \/ ema_signal = NONE))
    /\ (signal = SELL <-> rsi_signal = SELL /\ (ema_signal = SELL \/ ema_signal = NONE))
    /\ (signal = NONE <->
        ~ (rsi_signal = BUY /\ (ema_signal = BUY \/ ema_signal = NONE))
        /\ ~ (rsi_signal = SELL /\ (ema_signal = SELL \/ ema_signal = NONE)))
    /\ (rsi_signal = BUY -> ema_signal = SELL -> signal = NONE).
Proof.
  intros Hrsi Hema. exists (rsi_ema_decision rsi_signal ema_signal).
  split.
  - cbn [Strategies.get_signal]. rewrite Hrsi, Hema. reflexivity.
  - destruct rsi_signal, ema_signal; cbn [rsi_ema_decision];
      repeat split; intros; try discriminate; try reflexivity;
      intuition discriminate.
Qed.

End Composite.

Lemma composite_signal_witness :
  let rsi := Fixtures.column [Some 35; Some 25] in
  let ema := Fixtures.columns 9 [Some 3; Some 1] [Some 2; Some 2] in
  get_signal rsi ema Fixtures.no_band Fixtures.no_band
    (new_RSIEMAStrategy Fixtures.cfg) (take 2 Fixtures.four_bars)
  = Ok NONE.
Proof.
  cbv zeta.
  destruct (composite_signal (Fixtures.column [Some 35; Some 25])
              (Fixtures.columns 9 [Some 3; Some 1] [Some 2; Some 2])
              Fixtures.no_band Fixtures.no_band
              (new_RSIStrategy Fixtures.cfg) (new_EMAStrategy Fixtures.cfg)
              (take 2 Fixtures.four_bars) BUY SELL)
    as (signal & Hsignal & _ & _ & _ & Hnone).
  - vm_compute. reflexivity.
  - vm_compute. reflexivity.
  - unfold new_RSIEMAStrategy. rewrite Hsignal, (Hnone eq_refl eq_refl).
    reflexivity.
Defined.

(** The registry has exactly the four names. *)
Lemma strategies_lookup_unknown (cfg : Config) (name : string) :
  name ∉ ["RSI"; "EMA_Cross"; "RSI_EMA"; "Bollinger_Bands"] ->
  strategies cfg !! name = None.
Proof.
  intros Hnot. unfold strategies.
  rewrite !lookup_insert_ne; [apply lookup_empty| | | |];
    intros <-; apply Hnot; set_solver.
Qed.

Lemma strategies_lookup_RSI_EMA (cfg : Config) :
  strategies cfg !! "RSI_EMA" = Some (new_RSIEMAStrategy cfg).
Proof.
  unfold strategies.
  rewrite !lookup_insert_ne by discriminate. apply lookup_insert_eq.
Qed.

(** C9: for every name outside the registry the factory returns the
    RSI+EMA composite, the very instance registered under ["RSI_EMA"], so
    its [get_signal] gives the composite's signal on every bar sequence. *)
Theorem unknown_strategy_is_composite
    (RSIIndicator EMAIndicator : list Q -> Z -> list (option Q))
    (bollinger_hband bollinger_lband : list Q -> Z -> Q -> list (option Q))
    (cfg : Config) (name : string) :
  name ∉ ["RSI"; "EMA_Cross"; "RSI_EMA"; "Bollinger_Bands"] ->
  exists strategy,
    get_strategy cfg name = Ok strategy
    /\ get_strategy cfg "RSI_EMA" = Ok strategy
    /\ strategy = new_RSIEMAStrategy cfg
    /\ forall klines,
         get_signal RSIIndicator EMAIndicator bollinger_hband bollinger_lband
           strategy klines
         = get_signal RSIIndicator EMAIndicator bollinger_hband bollinger_lband
             (RSIEMAStrategy (new_RSIStrategy cfg) (new_EMAStrategy cfg)) klines.
Proof.
  intros Hnot. exists (new_RSIEMAStrategy cfg).
  unfold get_strategy, getitem.
  rewrite (strategies_lookup_unknown cfg name Hnot), strategies_lookup_RSI_EMA.
  rewrite bool_decide_eq_false_2 by (intros [? ?]; discriminate).
  rewrite bool_decide_eq_true_2 by (eexists; reflexivity).
  repeat split; reflexivity.
Qed.

Lemma unknown_strategy_is_composite_witness :
  get_strategy Fixtures.cfg "MACD" = Ok (new_RSIEMAStrategy Fixtures.cfg).
Proof.
  destruct (unknown_strategy_is_composite (Fixtures.column []) (Fixtures.column [])
              Fixtures.no_band Fixtures.no_band Fixtures.cfg "MACD")
    as (strategy & Hget & _ & -> & _).
  - intros H. repeat (apply elem_of_cons in H as [H | H]; [discriminate|]).
    apply elem_of_nil in H. exact H.
  - exact Hget.
Defined.

End StrategyFacts.

(** ** Further properties of risk_manager.py *)

Module RiskMoreFacts.
Import PyNum PyNumFacts Risk RiskFacts RiskMore.

(** *** round_step_size *)



(** Flooring is monotone in the quantity. *)
Theorem round_step_size_monotone (q1 q2 step_size r1 r2 : Q) :
  q1 <= q2 ->
  round_step_size q1 step_size = Ok r1 ->
  round_step_size q2 step_size = Ok r2 ->
  r1 <= r2.
Proof.
  intros Hq H1 H2.
  destruct (Qlt_le_dec 0 step_size) as [Hstep | Hstep].
  2: { rewrite round_step_size_Raise in H1 by exact Hstep. discriminate. }
  destruct (round_step_size_Ok q1 step_size Hstep) as (r1' & E1 & G1 & _).
  destruct (round_step_size_Ok q2 step_size Hstep) as (r2' & E2 & G2 & _).
  rewrite H1 in E1. rewrite H2 in E2. injection E1 as <-. injection E2 as <-.
  rewrite G1, G2.
  pose proof (pow10_pos (- round_neg_log10 step_size)) as Hi.
  apply Qmult_le_compat_r; [|lra].
  rewrite <- Zle_Qle. apply Qfloor_resp_le.
  apply Qmult_le_compat_r; [exact Hq|].
  pose proof (pow10_pos (round_neg_log10 step_size)). lra.
Qed.

Lemma round_step_size_monotone_witness : (103 # 1000) <= (2000 # 1000).
Proof.
  apply (round_step_size_monotone (1035 # 10000) (20007 # 10000) (1 # 1000)
           (103 # 1000) (2000 # 1000)).
  - vm_compute. discriminate.
  - vm_compute. reflexivity.
  - vm_compute. reflexivity.
Defined.

(** *** The balance trackers over a sequence of calls *)

Ltac split_Qltb :=
  repeat match goal with
         | |- context [Qltb ?a ?b] =>
             let E := fresh "E" in
             destruct (Qltb a b) eqn:E;
             [apply Qltb_lt in E | apply Qltb_ge in E]
         end.

Lemma after_call_step (cfg : Config) (self : RiskManager) (c : Call) :
  trackers_ok self ->
  trackers_ok (after_call cfg self c)
  /\ (forall i, initial_balance self = Some i ->
        initial_balance (after_call cfg self c) = Some i)
  /\ (forall l, last_known_balance self = Some l ->
        exists l', last_known_balance (after_call cfg self c) = Some l' /\ l <= l').
Proof.
  destruct self as [[i|] [l|]]; unfold trackers_ok; cbn [initial_balance last_known_balance];
    intros Hok; try contradiction;
    destruct c as [client symbol side price stop | client];
    unfold after_call, calculate_position_size, update_balance_for_compounding,
      track_balance;
    cbn [snd initial_balance last_known_balance];
    destruct (AUTO_COMPOUND cfg); cbn [negb andb snd];
    split_Qltb; cbn [snd initial_balance last_known_balance];
    (split; [first [lra | exact I] |]);
    (split; [intros ? [= <-]; reflexivity |]);
    intros ? [= <-]; eexists; (split; [reflexivity | lra]).
Qed.

Lemma after_calls_app (cfg : Config) (self : RiskManager) (calls more : list Call) :
  after_calls cfg self (calls ++ more)
  = after_calls cfg (after_calls cfg self calls) more.
Proof. unfold after_calls. apply fold_left_app. Qed.

Lemma after_calls_steps (cfg : Config) (calls : list Call) : forall self,
  trackers_ok self ->
  trackers_ok (after_calls cfg self calls)
  /\ (forall i, initial_balance self = Some i ->
        initial_balance (after_calls cfg self calls) = Some i)
  /\ (forall l, last_known_balance self = Some l ->
        exists l', last_known_balance (after_calls cfg self calls) = Some l'
                   /\ l <= l').
Proof.
  induction calls as [|c calls IH]; intros self Hok.
  - cbn. split; [exact Hok|]. split; [auto|]. intros l Hl. exists l. split; [exact Hl | lra].
  - change (after_calls cfg self (c :: calls))
      with (after_calls cfg (after_call cfg self c) calls).
    destruct (after_call_step cfg self c Hok) as (Hok1 & Hi1 & Hl1).
    destruct (IH _ Hok1) as (Hok2 & Hi2 & Hl2).
    split; [exact Hok2|]. split.
    + intros i Hi. apply Hi2, Hi1, Hi.
    + intros l Hl. destruct (Hl1 l Hl) as (l1 & E1 & Hle1).
      destruct (Hl2 l1 E1) as (l2 & E2 & Hle2).
      exists l2. split; [exact E2 | lra].
Qed.

Lemma reachable_trackers_ok (cfg : Config) (calls : list Call) :
  trackers_ok (after_calls cfg new_RiskManager calls).
Proof. apply after_calls_steps. exact I. Qed.

(** Whatever calls are made on a new instance, in whatever order, the two
    trackers are unset together or set together, and then the initial
    balance is not above the last known balance. *)
Theorem trackers_set_together (cfg : Config) (calls : list Call) :
  trackers_ok (after_calls cfg new_RiskManager calls).
Proof.
  destruct (after_calls_steps cfg calls new_RiskManager) as [Hok _].
  - exact I.
  - exact Hok.
Qed.

(** Once set, the initial balance is never written again, and the last
    known balance never goes down, whatever calls follow. *)
Theorem trackers_ratchet (cfg : Config) (calls more : list Call) :
  (forall i, initial_balance (after_calls cfg new_RiskManager calls) = Some i ->
     initial_balance (after_calls cfg new_RiskManager (calls ++ more)) = Some i)
  /\ (forall l, last_known_balance (after_calls cfg new_RiskManager calls) = Some l ->
        exists l',
          last_known_balance (after_calls cfg new_RiskManager (calls ++ more))
          = Some l'
          /\ l <= l').
Proof.
  rewrite after_calls_app.
  apply (after_calls_steps cfg more _ (reachable_trackers_ok cfg calls)).
Qed.

Lemma trackers_ratchet_witness :
  let calls := [Size (Fixtures.client 100 None None) "BTCUSDT" "BUY" 100 None] in
  let more := [Compound (Fixtures.client 90 None None);
               Compound (Fixtures.client 120 None None)] in
  initial_balance (after_calls Fixtures.cfg new_RiskManager (calls ++ more))
  = Some 100.
Proof.
  cbv zeta.
  apply (proj1 (trackers_ratchet Fixtures.cfg
                  [Size (Fixtures.client 100 None None) "BTCUSDT" "BUY" 100 None]
                  [Compound (Fixtures.client 90 None None);
                   Compound (Fixtures.client 120 None None)])).
  reflexivity.
Defined.

(** A sizing call always sets the trackers of a new instance; a compounding
    call does when the feature is enabled.  The initial balance is then the
    balance that first call read, whatever calls follow. *)
Theorem initial_balance_is_first (cfg : Config) (c : Call) (rest : list Call) :
  (AUTO_COMPOUND cfg = true \/ exists client symbol side price stop,
                                 c = Size client symbol side price stop) ->
  initial_balance (after_calls cfg new_RiskManager (c :: rest))
  = Some (call_balance c).
Proof.
  intros Hc.
  change (c :: rest) with ([c] ++ rest). rewrite after_calls_app.
  apply (after_calls_steps cfg rest _ (reachable_trackers_ok cfg [c])).
  destruct c as [client symbol side price stop | client].
  - cbn. destruct (AUTO_COMPOUND cfg); cbn [andb]; [|reflexivity].
    split_Qltb; reflexivity.
  - destruct Hc as [Hon | (? & ? & ? & ? & ? & Habs)]; [|discriminate].
    cbn. unfold update_balance_for_compounding. rewrite Hon. reflexivity.
Qed.

Lemma initial_balance_is_first_witness :
  initial_balance
    (after_calls Fixtures.cfg new_RiskManager
       [Compound (Fixtures.client 100 None None);
        Size (Fixtures.client 250 None None) "BTCUSDT" "BUY" 100 None])
  = Some 100.
Proof.
  apply (initial_balance_is_first Fixtures.cfg
           (Compound (Fixtures.client 100 None None))
           [Size (Fixtures.client 250 None None) "BTCUSDT" "BUY" 100 None]).
  left. reflexivity.
Defined.

Lemma after_call_high_water (cfg : Config) (self : RiskManager) (c : Call) (m : Q) :
  AUTO_COMPOUND cfg = true ->
  trackers_ok self ->
  last_known_balance self = Some m ->
  (m < call_balance c ->
   last_known_balance (after_call cfg self c) = Some (call_balance c))
  /\ (call_balance c <= m -> last_known_balance (after_call cfg self c) = Some m).
Proof.
  intros Hon Hok Hm.
  destruct self as [[i|] [l|]]; unfold trackers_ok in Hok;
    cbn [initial_balance last_known_balance] in *; try contradiction;
    try discriminate.
  injection Hm as ->.
  destruct c as [client symbol side price stop | client];
    unfold after_call, calculate_position_size, update_balance_for_compounding,
      track_balance, call_balance;
    cbn [snd initial_balance last_known_balance]; rewrite Hon; cbn [negb andb];
    split_Qltb; cbn [snd last_known_balance];
    (split; intros H; first [reflexivity | lra]).
Qed.

(** With auto-compounding enabled the last known balance is a high-water
    mark: after any calls on a new instance it is the largest balance that
    any of the calls read. *)
Theorem last_known_balance_is_maximum (cfg : Config) (calls : list Call) :
  AUTO_COMPOUND cfg = true ->
  calls <> [] ->
  exists m,
    last_known_balance (after_calls cfg new_RiskManager calls) = Some m
    /\ Forall (fun c => call_balance c <= m) calls
    /\ Exists (fun c => call_balance c = m) calls.
Proof.
  intros Hon. induction calls as [|c calls IH] using rev_ind; [congruence|].
  intros _. rewrite after_calls_app.
  change (after_calls cfg ?s [c]) with (after_call cfg s c).
  destruct calls as [|c0 calls'].
  - exists (call_balance c). split; [|split].
    + destruct c as [client symbol side price stop | client]; cbn;
        rewrite ?Hon; cbn [andb]; split_Qltb; try reflexivity.
      unfold update_balance_for_compounding. rewrite Hon. reflexivity.
    + apply Forall_cons. split; [lra | apply Forall_nil_2].
    + apply Exists_cons_hd. reflexivity.
  - destruct (IH ltac:(discriminate)) as (m & Hm & Hall & Hex).
    pose proof (reachable_trackers_ok cfg (c0 :: calls')) as Hok.
    destruct (after_call_high_water cfg _ c m Hon Hok Hm) as [Hup Hkeep].
    destruct (Qlt_le_dec m (call_balance c)) as [Hlt | Hle].
    + exists (call_balance c). split; [apply Hup, Hlt|]. split.
      * apply Forall_app. split.
        -- eapply Forall_impl; [exact Hall|]. cbv beta. intros x Hx. lra.
        -- apply Forall_cons. split; [lra | apply Forall_nil_2].
      * apply Exists_app. right. apply Exists_cons_hd. reflexivity.
    + exists m. split; [apply Hkeep, Hle|]. split.
      * apply Forall_app. split; [exact Hall|].
        apply Forall_cons. split; [exact Hle | apply Forall_nil_2].
      * apply Exists_app. left. exact Hex.
Qed.

Lemma last_known_balance_is_maximum_witness :
  exists m,
    last_known_balance
      (after_calls Fixtures.cfg new_RiskManager
         [Size (Fixtures.client 100 None None) "BTCUSDT" "BUY" 100 None;
          Compound (Fixtures.client 120 None None);
          Compound (Fixtures.client 90 None None)]) = Some m
    /\ m = 120.
Proof.
  destruct (last_known_balance_is_maximum Fixtures.cfg
              [Size (Fixtures.client 100 None None) "BTCUSDT" "BUY" 100 None;
               Compound (Fixtures.client 120 None None);
               Compound (Fixtures.client 90 None None)] eq_refl ltac:(discriminate))
    as (m & Hm & _).
  exists m. split; [exact Hm|].
  vm_compute in Hm. injection Hm as <-. reflexivity.
Defined.

(** A sizing call uses up the profit: whatever the instance was, a
    compounding call that follows it at the same balance reports no
    compounding. *)
Theorem compounding_after_sizing_is_false (cfg : Config) (client later : Client)
    (self : RiskManager) (symbol side : string) (price : Q)
    (stop_loss_price : option Q) :
  get_account_balance later = get_account_balance client ->
  AUTO_COMPOUND cfg = true ->
  fst (update_balance_for_compounding cfg later
         (snd (calculate_position_size cfg client self symbol side price
                 stop_loss_price)))
  = false.
Proof.
  intros Hsame Hon.
  unfold update_balance_for_compounding, calculate_position_size, track_balance.
  rewrite Hsame, Hon. cbn [negb andb snd].
  destruct self as [[i|] [l|]]; cbn [initial_balance last_known_balance];
    split_Qltb; cbn [last_known_balance fst]; split_Qltb;
    cbn [fst]; first [reflexivity | lra].
Qed.

Lemma compounding_after_sizing_is_false_witness :
  fst (update_balance_for_compounding Fixtures.cfg (Fixtures.client 110 None None)
         (snd (calculate_position_size Fixtures.cfg (Fixtures.client 110 None None)
                 {| initial_balance := Some 100; last_known_balance := Some 100 |}
                 "BTCUSDT" "BUY" 100 None)))
  = false.
Proof.
  apply (compounding_after_sizing_is_false Fixtures.cfg
           (Fixtures.client 110 None None) (Fixtures.client 110 None None)
           {| initial_balance := Some 100; last_known_balance := Some 100 |}
           "BTCUSDT" "BUY" 100 None); reflexivity.
Defined.

(** *** calculate_position_size *)



(** A price of zero makes the call raise [ZeroDivisionError] instead of
    returning the sentinel, for every stop price, once the balance is
    positive and the instrument has positive limits. *)
Theorem zero_price_raises (cfg : Config) (client : Client) (self : RiskManager)
    (symbol side : string) (price : Q) (stop_loss_price : option Q)
    (symbol_info : SymbolInfo) :
  0 < get_account_balance client ->
  get_symbol_info client symbol = Some symbol_info ->
  0 < min_qty symbol_info ->
  0 < min_notional symbol_info ->
  price == 0 ->
  fst (calculate_position_size cfg client self symbol side price stop_loss_price)
  = Raise ZeroDivisionError.
Proof.
  intros Hbal Hinfo Hstep Hmn Hprice.
  unfold calculate_position_size, position_size_body, max_quantity. cbn [fst].
  apply Qle_bool_gt in Hbal. rewrite Hbal, Hinfo.
  destruct stop_loss_price as [sl|];
    [destruct (truthy sl) eqn:Et; cbn [andb];
     [destruct (USE_STOP_LOSS cfg)|]|];
    try (rewrite !py_div_zero by (exact Hprice); reflexivity).
  apply truthy_true in Et.
  assert (Hd : 0 < Qabs (price - sl))
    by (apply Qabs_nonzero_pos; intros E; apply Et; lra).
  assert (Hd' : ~ Qabs (price - sl) == 0) by (intros E; lra).
  apply Qle_bool_gt in Hd.
  rewrite Hd, (py_div_nonzero _ (Qabs (price - sl))) by exact Hd'.
  cbn [lift mbind flow_bind]. rewrite get_step_size_id.
  destruct (round_step_size_Ok
              (get_account_balance client * RISK_PER_TRADE cfg / Qabs (price - sl))
              (min_qty symbol_info) Hstep) as (fl & -> & _ & _).
  cbn [lift mbind flow_bind].
  assert (Hlt : fl * price < min_notional symbol_info) by (rewrite Hprice; lra).
  apply Qltb_lt in Hlt. rewrite Hlt, py_div_zero by exact Hprice.
  reflexivity.
Qed.

Lemma zero_price_raises_witness :
  fst (calculate_position_size Fixtures.cfg
         (Fixtures.client 1000 (Some Fixtures.milli) None) new_RiskManager
         "BTCUSDT" "BUY" 0 (Some 98))
  = Raise ZeroDivisionError.
Proof.
  apply (zero_price_raises Fixtures.cfg
           (Fixtures.client 1000 (Some Fixtures.milli) None) new_RiskManager
           "BTCUSDT" "BUY" 0 (Some 98) Fixtures.milli); reflexivity.
Defined.

(** A minimum quantity that is not positive makes the call raise
    [ValueError] instead of returning the sentinel, whenever the balance and
    the price are positive and the stop distance guard does not fire. *)
Theorem nonpositive_min_qty_raises (cfg : Config) (client : Client)
    (self : RiskManager) (symbol side : string) (price : Q)
    (stop_loss_price : option Q) (symbol_info : SymbolInfo) :
  0 < get_account_balance client ->
  get_symbol_info client symbol = Some symbol_info ->
  min_qty symbol_info <= 0 ->
  0 < price ->
  ~ stop_guard cfg price stop_loss_price ->
  fst (calculate_position_size cfg client self symbol side price stop_loss_price)
  = Raise ValueError.
Proof.
  intros Hbal Hinfo Hstep Hprice Hguard.
  unfold calculate_position_size, position_size_body. cbn [fst].
  apply Qle_bool_gt in Hbal. rewrite Hbal, Hinfo.
  destruct (max_quantity_total cfg client (get_account_balance client) symbol
              price stop_loss_price Hprice) as [[maxq Hm] | Hm].
  - rewrite Hm. cbn [mbind flow_bind].
    rewrite get_step_size_id, round_step_size_Raise by exact Hstep. reflexivity.
  - exfalso. apply Hguard.
    apply (max_quantity_Return cfg client _ symbol price stop_loss_price 0 Hm).
Qed.

Lemma nonpositive_min_qty_raises_witness :
  let info := {| quantity_precision := 3; min_qty := 0;
                 min_notional := 5; price_precision := 2 |} in
  fst (calculate_position_size Fixtures.cfg
         (Fixtures.client 1000 (Some info) None) new_RiskManager
         "BTCUSDT" "BUY" 100 None)
  = Raise ValueError.
Proof.
  cbv zeta.
  apply (nonpositive_min_qty_raises Fixtures.cfg
           (Fixtures.client 1000
              (Some {| quantity_precision := 3; min_qty := 0;
                       min_notional := 5; price_precision := 2 |}) None)
           new_RiskManager "BTCUSDT" "BUY" 100 None
           {| quantity_precision := 3; min_qty := 0;
              min_notional := 5; price_precision := 2 |}).
  - reflexivity.
  - reflexivity.
  - vm_compute. discriminate.
  - reflexivity.
  - intros (sl & Habs & _). discriminate.
Defined.

(** *** Stop loss, take profit and trailing stop *)

(** Every side other than the exact string ["BUY"] is handled as a short
    position, by all three price calculations. *)
Theorem non_buy_side_is_short (cfg : Config) (client : Client)
    (USE_TAKE_PROFIT : bool) (TAKE_PROFIT_PCT : Q) (symbol side : string)
    (price : Q) (position_info : option PositionInfo) :
  side <> "BUY" ->
  calculate_stop_loss cfg client symbol side price
  = calculate_stop_loss cfg client symbol "SELL" price
  /\ calculate_take_profit client USE_TAKE_PROFIT TAKE_PROFIT_PCT symbol side price
     = calculate_take_profit client USE_TAKE_PROFIT TAKE_PROFIT_PCT symbol "SELL" price
  /\ adjust_stop_loss_for_trailing cfg client symbol side price position_info
     = adjust_stop_loss_for_trailing cfg client symbol "SELL" price position_info.
Proof.
  intros Hside. apply String.eqb_neq in Hside.
  unfold adjust_stop_loss_for_trailing, calculate_take_profit, calculate_stop_loss.
  rewrite Hside. repeat split; reflexivity.
Qed.

Lemma non_buy_side_is_short_witness :
  calculate_stop_loss Fixtures.cfg (Fixtures.client 1000 None None) "BTCUSDT" "buy" 100
  = calculate_stop_loss Fixtures.cfg (Fixtures.client 1000 None None) "BTCUSDT" "SELL"
      100.
Proof.
  apply (non_buy_side_is_short Fixtures.cfg (Fixtures.client 1000 None None)
           true (4 # 100) "BTCUSDT" "buy" 100 None).
  discriminate.
Defined.

(** With both features enabled, percentages that are not negative and an
    entry price that is not negative, the stop loss is never on the profit
    side of the take profit: not above it for a long, not below it for a
    short, also after both were rounded to the price precision. *)
Theorem stop_loss_against_take_profit (cfg : Config) (client : Client)
    (TAKE_PROFIT_PCT : Q) (symbol side : string) (entry_price : Q) :
  USE_STOP_LOSS cfg = true ->
  0 <= STOP_LOSS_PCT cfg -> 0 <= TAKE_PROFIT_PCT -> 0 <= entry_price ->
  exists stop take,
    calculate_stop_loss cfg client symbol side entry_price = Some stop
    /\ calculate_take_profit client true TAKE_PROFIT_PCT symbol side entry_price
       = Some take
    /\ if String.eqb side "BUY" then stop <= take else take <= stop.
Proof.
  intros Hon Hsl Htp Hentry.
  unfold calculate_stop_loss, calculate_take_profit. rewrite Hon. cbn [negb].
  eexists. eexists. split; [reflexivity|]. split; [reflexivity|].
  assert (H1 : 0 <= entry_price * STOP_LOSS_PCT cfg)
    by (apply Qmult_le_0_compat; assumption).
  assert (H2 : 0 <= entry_price * TAKE_PROFIT_PCT)
    by (apply Qmult_le_0_compat; assumption).
  destruct (String.eqb side "BUY");
    (destruct (get_symbol_info client symbol); [apply py_round_mono|]); lra.
Qed.

Lemma stop_loss_against_take_profit_witness :
  exists stop take,
    calculate_stop_loss Fixtures.cfg (Fixtures.client 1000 (Some Fixtures.milli) None)
      "BTCUSDT" "BUY" 100 = Some stop
    /\ calculate_take_profit (Fixtures.client 1000 (Some Fixtures.milli) None)
         true (4 # 100) "BTCUSDT" "BUY" 100 = Some take
    /\ stop <= take.
Proof.
  destruct (stop_loss_against_take_profit Fixtures.cfg
              (Fixtures.client 1000 (Some Fixtures.milli) None) (4 # 100)
              "BTCUSDT" "BUY" 100) as (stop & take & Hs & Ht & Hle).
  - reflexivity.
  - vm_compute. discriminate.
  - vm_compute. discriminate.
  - vm_compute. discriminate.
  - exists stop, take. repeat split; assumption.
Defined.

(** What a short trailing adjustment returns, when it returns a stop. *)
Lemma adjust_short_inv (cfg : Config) (client : Client) (symbol side : string)
    (current_price : Q) (position_info : option PositionInfo) (s : Q) :
  String.eqb side "BUY" = false ->
  adjust_stop_loss_for_trailing cfg client symbol side current_price position_info
  = Some s ->
  s = match get_symbol_info client symbol with
      | Some symbol_info =>
          py_round (current_price * (1 + TRAILING_STOP_PCT cfg))
            (price_precision symbol_info)
      | None => current_price * (1 + TRAILING_STOP_PCT cfg)
      end.
Proof.
  intros Hside. unfold adjust_stop_loss_for_trailing. rewrite Hside.
  destruct (negb (TRAILING_STOP cfg)); [discriminate|].
  destruct (match position_info with Some _ => position_info | None => _ end)
    as [position|]; [|discriminate].
  destruct (Qeq_bool _ 0); [discriminate|].
  destruct (_ && _); [discriminate|].
  destruct (get_symbol_info client symbol); intros [= <-]; reflexivity.
Qed.

(** For a short position with the trailing stop enabled, an open position
    and a trailing percentage that is not negative: against an existing
    stop that is not zero, the candidate [current_price * (1 + trailing_pct)]
    is returned only if it is strictly below that stop and none is returned
    otherwise; an existing stop of exactly zero blocks nothing; and over two
    calls with non-increasing price the returned stop does not increase. *)
Theorem trailing_stop_short_ratchet (cfg : Config) (client : Client)
    (symbol side : string) (current_price : Q)
    (position_info : option PositionInfo) (position : PositionInfo) :
  side <> "BUY" ->
  TRAILING_STOP cfg = true ->
  0 <= TRAILING_STOP_PCT cfg ->
  match position_info with
  | Some _ => position_info
  | None => get_position_info client symbol
  end = Some position ->
  ~ position_amount position == 0 ->
  let candidate := current_price * (1 + TRAILING_STOP_PCT cfg) in
  let existing := calculate_stop_loss cfg client symbol side (entry_price position) in
  let returned :=
    adjust_stop_loss_for_trailing cfg client symbol side current_price position_info in
  (forall current_stop, existing = Some current_stop -> ~ current_stop == 0 ->
     current_stop <= candidate -> returned = None)
  /\ (forall s, returned = Some s ->
        forall current_stop, existing = Some current_stop -> ~ current_stop == 0 ->
          candidate < current_stop)
  /\ (forall current_stop, existing = Some current_stop -> current_stop == 0 ->
        is_Some returned)
  /\ (forall later_client later_price later_position s s',
        get_symbol_info later_client symbol = get_symbol_info client symbol ->
        later_price <= current_price ->
        returned = Some s ->
        adjust_stop_loss_for_trailing cfg later_client symbol side later_price
          later_position = Some s' ->
        s' <= s).
Proof.
  intros Hside Hon Hpct Hpos Hopen. cbv zeta.
  apply String.eqb_neq in Hside.
  assert (Hamount : Qeq_bool (Qabs (position_amount position)) 0 = false).
  { destruct (Qeq_bool _ 0) eqn:E; [|reflexivity].
    apply Qeq_bool_iff in E.
    pose proof (Qabs_nonzero_pos _ Hopen). lra. }
  assert (Hunfold :
    adjust_stop_loss_for_trailing cfg client symbol side current_price position_info
    = let new_stop := current_price * (1 + TRAILING_STOP_PCT cfg) in
      let current_stop :=
        calculate_stop_loss cfg client symbol side (entry_price position) in
      if truthy_opt current_stop && Qle_bool (default 0 current_stop) new_stop
      then None
      else match get_symbol_info client symbol with
           | Some symbol_info => Some (py_round new_stop (price_precision symbol_info))
           | None => Some new_stop
           end).
  { unfold adjust_stop_loss_for_trailing. rewrite Hon, Hpos, Hamount, Hside.
    reflexivity. }
  split; [|split; [|split]].
  - intros cs Hcs Hnz Hle. rewrite Hunfold. cbv zeta. rewrite Hcs.
    cbn [truthy_opt from_option id].
    apply truthy_true in Hnz. apply Qle_bool_iff in Hle. rewrite Hnz, Hle.
    reflexivity.
  - intros s Hret cs Hcs Hnz. rewrite Hunfold in Hret. cbv zeta in Hret.
    rewrite Hcs in Hret. cbn [truthy_opt from_option id] in Hret.
    apply truthy_true in Hnz. rewrite Hnz in Hret. cbn [andb] in Hret.
    destruct (Qle_bool cs _) eqn:El; [discriminate|].
    apply Qle_bool_gt in El. exact El.
  - intros cs Hcs Hz. rewrite Hunfold. cbv zeta. rewrite Hcs.
    cbn [truthy_opt from_option id].
    apply truthy_false in Hz. rewrite Hz. cbn [andb].
    destruct (get_symbol_info client symbol); eexists; reflexivity.
  - intros later_client later_price later_position s s' Hsame Hlater Hs Hs'.
    apply (adjust_short_inv _ _ _ _ _ _ _ Hside) in Hs, Hs'.
    rewrite Hsame in Hs'. subst s s'.
    assert (Hmono : later_price * (1 + TRAILING_STOP_PCT cfg)
                    <= current_price * (1 + TRAILING_STOP_PCT cfg))
      by (apply Qmult_le_compat_r; lra).
    destruct (get_symbol_info client symbol);
      [apply py_round_mono|]; exact Hmono.
Qed.

Lemma trailing_stop_short_ratchet_witness :
  adjust_stop_loss_for_trailing Fixtures.cfg
    (Fixtures.client 1000 (Some Fixtures.milli) None) "BTCUSDT" "SELL" 102
    (Some Fixtures.long10)
  = None.
Proof.
  destruct (trailing_stop_short_ratchet Fixtures.cfg
              (Fixtures.client 1000 (Some Fixtures.milli) None) "BTCUSDT" "SELL" 102
              (Some Fixtures.long10) Fixtures.long10) as [Hnone _].
  - discriminate.
  - reflexivity.
  - vm_compute. discriminate.
  - reflexivity.
  - intros H; vm_compute in H; discriminate.
  - eapply Hnone.
    + vm_compute. reflexivity.
    + intros H; vm_compute in H; discriminate.
    + vm_compute. discriminate.
Defined.

(** A long trailing adjustment returns none in exactly four cases: the
    feature is disabled; there is no position, passed in or reported; the
    position amount is zero; or the existing stop is not zero and the
    candidate is not above it. *)
Theorem trailing_long_none_iff (cfg : Config) (client : Client) (symbol : string)
    (current_price : Q) (position_info : option PositionInfo) :
  let effective :=
    match position_info with
    | Some _ => position_info
    | None => get_position_info client symbol
    end in
  adjust_stop_loss_for_trailing cfg client symbol "BUY" current_price position_info
  = None
  <-> TRAILING_STOP cfg = false
      \/ effective = None
      \/ (exists position, effective = Some position
                           /\ position_amount position == 0)
      \/ (exists position current_stop,
            effective = Some position
            /\ calculate_stop_loss cfg client symbol "BUY" (entry_price position)
               = Some current_stop
            /\ ~ current_stop == 0
            /\ current_price * (1 - TRAILING_STOP_PCT cfg) <= current_stop).
Proof.
  cbv zeta. unfold adjust_stop_loss_for_trailing.
  destruct (TRAILING_STOP cfg); cbn [negb]; [|split; auto].
  destruct (match position_info with Some _ => position_info | None => _ end)
    as [position|]; [|split; auto].
  destruct (Qeq_bool (Qabs (position_amount position)) 0) eqn:Ea.
  { split; [|reflexivity]. intros _. right; right; left. exists position.
    split; [reflexivity|]. apply Qeq_bool_iff in Ea.
    destruct (Qeq_dec (position_amount position) 0) as [|Hne]; [assumption|].
    pose proof (Qabs_nonzero_pos _ Hne). lra. }
  assert (Hopen : ~ position_amount position == 0).
  { intros Hz. apply Qeq_bool_neq in Ea. apply Ea, Qabs_zero, Hz. }
  cbn [String.eqb Ascii.eqb Bool.eqb].
  destruct (calculate_stop_loss cfg client symbol "BUY" (entry_price position))
    as [cs|] eqn:Ecs; cbn [truthy_opt from_option id andb].
  - destruct (truthy cs) eqn:Et; cbn [andb].
    + apply truthy_true in Et.
      destruct (Qle_bool _ cs) eqn:El.
      * apply Qle_bool_iff in El. split; [|reflexivity]. intros _.
        right; right; right. exists position, cs. auto.
      * apply Qle_bool_gt in El. split.
        -- destruct (get_symbol_info client symbol); discriminate.
        -- intros [H | [H | [(p & [= <-] & Hz) | (p & cs' & [= <-] & Hcs' & _ & Hle)]]];
             try discriminate; try contradiction.
           rewrite Ecs in Hcs'. injection Hcs' as <-. lra.
    + apply truthy_false in Et. split.
      * destruct (get_symbol_info client symbol); discriminate.
      * intros [H | [H | [(p & [= <-] & Hz) | (p & cs' & [= <-] & Hcs' & Hnz & _)]]];
          try discriminate; try contradiction.
        rewrite Ecs in Hcs'. injection Hcs' as <-. contradiction.
  - split.
    + destruct (get_symbol_info client symbol); discriminate.
    + intros [H | [H | [(p & [= <-] & Hz) | (p & cs' & [= <-] & Hcs' & _)]]];
        try discriminate; try contradiction.
      rewrite Ecs in Hcs'. discriminate.
Qed.

(** What a long trailing adjustment returns, when it returns a stop. *)
Lemma adjust_long_inv (cfg : Config) (client : Client) (symbol : string)
    (current_price : Q) (position_info : option PositionInfo) (s : Q) :
  adjust_stop_loss_for_trailing cfg client symbol "BUY" current_price position_info
  = Some s ->
  s = match get_symbol_info client symbol with
      | Some symbol_info =>
          py_round (current_price * (1 - TRAILING_STOP_PCT cfg))
            (price_precision symbol_info)
      | None => current_price * (1 - TRAILING_STOP_PCT cfg)
      end.
Proof.
  unfold adjust_stop_loss_for_trailing.
  destruct (negb (TRAILING_STOP cfg)); [discriminate|].
  destruct (match position_info with Some _ => position_info | None => _ end)
    as [position|]; [|discriminate].
  destruct (Qeq_bool _ 0); [discriminate|].
  cbn [String.eqb Ascii.eqb Bool.eqb].
  destruct (_ && _); [discriminate|].
  destruct (get_symbol_info client symbol); intros [= <-]; reflexivity.
Qed.

(** For a long position with the trailing stop enabled, an open position and
    a trailing percentage of at most 1: a returned stop is the candidate
    [current_price * (1 - trailing_pct)] rounded to the price precision
    (unrounded without symbol metadata); it is returned whenever the stop
    computed from the entry price is none, zero or below the candidate; and
    over two calls with non-decreasing price (and the same price precision)
    the returned stop does not decrease. *)
Theorem trailing_long_returned_stop (cfg : Config) (client : Client)
    (symbol : string) (current_price : Q) (position_info : option PositionInfo)
    (position : PositionInfo) :
  TRAILING_STOP cfg = true ->
  TRAILING_STOP_PCT cfg <= 1 ->
  match position_info with
  | Some _ => position_info
  | None => get_position_info client symbol
  end = Some position ->
  ~ position_amount position == 0 ->
  let candidate := current_price * (1 - TRAILING_STOP_PCT cfg) in
  let rounded :=
    match get_symbol_info client symbol with
    | Some symbol_info => py_round candidate (price_precision symbol_info)
    | None => candidate
    end in
  let entry_stop :=
    calculate_stop_loss cfg client symbol "BUY" (entry_price position) in
  let returned :=
    adjust_stop_loss_for_trailing cfg client symbol "BUY" current_price position_info in
  (forall s, returned = Some s -> s = rounded)
  /\ ((forall current_stop, entry_stop = Some current_stop ->
         current_stop == 0 \/ current_stop < candidate) ->
      returned = Some rounded)
  /\ (forall later_client later_price later_position s s',
        get_symbol_info later_client symbol = get_symbol_info client symbol ->
        current_price <= later_price ->
        returned = Some s ->
        adjust_stop_loss_for_trailing cfg later_client symbol "BUY" later_price
          later_position = Some s' ->
        s <= s').
Proof.
  intros Hon Hpct Hpos Hopen. cbv zeta.
  split; [|split].
  - intros s Hs. apply adjust_long_inv in Hs. exact Hs.
  - intros Hstop.
    assert (Hamount : Qeq_bool (Qabs (position_amount position)) 0 = false).
    { destruct (Qeq_bool _ 0) eqn:E; [|reflexivity].
      apply Qeq_bool_iff in E.
      pose proof (Qabs_nonzero_pos _ Hopen). lra. }
    unfold adjust_stop_loss_for_trailing. rewrite Hon, Hpos, Hamount.
    cbn [negb String.eqb Ascii.eqb Bool.eqb].
    destruct (calculate_stop_loss cfg client symbol "BUY" (entry_price position))
      as [cs|]; cbn [truthy_opt from_option id andb].
    + destruct (Hstop cs eq_refl) as [Hz | Hlt].
      * apply truthy_false in Hz. rewrite Hz. cbn [andb].
        destruct (get_symbol_info client symbol); reflexivity.
      * apply Qle_bool_gt in Hlt. rewrite Hlt, andb_false_r.
        destruct (get_symbol_info client symbol); reflexivity.
    + destruct (get_symbol_info client symbol); reflexivity.
  - intros later_client later_price later_position s s' Hsame Hlater Hs Hs'.
    apply adjust_long_inv in Hs, Hs'. rewrite Hsame in Hs'. subst s s'.
    assert (Hmono : current_price * (1 - TRAILING_STOP_PCT cfg)
                    <= later_price * (1 - TRAILING_STOP_PCT cfg))
      by (apply Qmult_le_compat_r; lra).
    destruct (get_symbol_info client symbol);
      [apply py_round_mono|]; exact Hmono.
Qed.

Lemma trailing_long_returned_stop_witness :
  adjust_stop_loss_for_trailing Fixtures.cfg
    (Fixtures.client 1000 (Some Fixtures.milli) None) "BTCUSDT" "BUY" 110
    (Some Fixtures.long10)
  = Some (py_round (110 * (1 - TRAILING_STOP_PCT Fixtures.cfg))
            (price_precision Fixtures.milli)).
Proof.
  destruct (trailing_long_returned_stop Fixtures.cfg
              (Fixtures.client 1000 (Some Fixtures.milli) None) "BTCUSDT" 110
              (Some Fixtures.long10) Fixtures.long10) as (_ & Hsome & _).
  - reflexivity.
  - vm_compute. discriminate.
  - reflexivity.
  - intros H; vm_compute in H; discriminate.
  - apply Hsome. intros cs Hcs. right.
    vm_compute in Hcs. injection Hcs as <-. reflexivity.
Defined.

(** *** should_open_position *)

Lemma open_positions_permutation (ps ps' : list FuturesPosition) :
  Permutation ps ps' ->
  length (List.filter (fun p => negb (Qeq_bool (positionAmt p) 0)) ps)
  = length (List.filter (fun p => negb (Qeq_bool (positionAmt p) 0)) ps').
Proof.
  intros H. induction H as [|x l l' _ IH|x y l|l l' l'' _ IH1 _ IH2];
    cbn [List.filter].
  - reflexivity.
  - destruct (negb _); cbn [length]; congruence.
  - destruct (negb (Qeq_bool (positionAmt x) 0)), (negb (Qeq_bool (positionAmt y) 0));
      reflexivity.
  - congruence.
Qed.

(** The decision depends on the account's positions only through the
    number of those with a nonzero amount: their order does not matter, and
    a flat entry anywhere in the list changes nothing. *)
Theorem should_open_position_counts_open_only (client : Client)
    (MAX_OPEN_POSITIONS : Z) (symbol : string) :
  (forall positions positions',
     Permutation positions positions' ->
     should_open_position client MAX_OPEN_POSITIONS positions symbol
     = should_open_position client MAX_OPEN_POSITIONS positions' symbol)
  /\ (forall before flat after,
        positionAmt flat == 0 ->
        should_open_position client MAX_OPEN_POSITIONS (before ++ flat :: after) symbol
        = should_open_position client MAX_OPEN_POSITIONS (before ++ after) symbol).
Proof.
  split.
  - intros ps ps' Hperm. unfold should_open_position.
    rewrite (open_positions_permutation ps ps' Hperm). reflexivity.
  - intros before flat after Hflat. unfold should_open_position.
    rewrite !List.filter_app. cbn [List.filter].
    apply Qeq_bool_iff in Hflat. rewrite Hflat. reflexivity.
Qed.

Lemma should_open_position_counts_open_only_witness :
  should_open_position (Fixtures.client 1000 None None) 2
    [{| positionAmt := 1 |}; {| positionAmt := 0 |}; {| positionAmt := 0 |}]
    "BTCUSDT"
  = should_open_position (Fixtures.client 1000 None None) 2
      [{| positionAmt := 1 |}; {| positionAmt := 0 |}] "BTCUSDT".
Proof.
  apply (proj2 (should_open_position_counts_open_only
                  (Fixtures.client 1000 None None) 2 "BTCUSDT")
           [{| positionAmt := 1 |}] {| positionAmt := 0 |} [{| positionAmt := 0 |}]).
  reflexivity.
Defined.

(** More positions on the account never turn a refusal into an approval:
    if a position may be opened with some further positions reported, it may
    be opened without them. *)
Theorem should_open_position_antitone (client : Client) (MAX_OPEN_POSITIONS : Z)
    (symbol : string) (positions further : list FuturesPosition) :
  should_open_position client MAX_OPEN_POSITIONS (positions ++ further) symbol = true ->
  should_open_position client MAX_OPEN_POSITIONS positions symbol = true.
Proof.
  unfold should_open_position.
  destruct (match get_position_info client symbol with
            | Some position_info => _ | None => false end); [discriminate|].
  rewrite List.filter_app, length_app.
  destruct (Z.leb_spec MAX_OPEN_POSITIONS
              (Z.of_nat (length (List.filter
                 (fun p => negb (Qeq_bool (positionAmt p) 0)) positions)
               + length (List.filter
                 (fun p => negb (Qeq_bool (positionAmt p) 0)) further))));
    [discriminate|].
  intros _.
  destruct (Z.leb_spec MAX_OPEN_POSITIONS
              (Z.of_nat (length (List.filter
                 (fun p => negb (Qeq_bool (positionAmt p) 0)) positions))));
    [lia | reflexivity].
Qed.

Lemma should_open_position_antitone_witness :
  should_open_position (Fixtures.client 1000 None None) 3 [{| positionAmt := 1 |}]
    "BTCUSDT" = true.
Proof.
  apply (should_open_position_antitone (Fixtures.client 1000 None None) 3 "BTCUSDT"
           [{| positionAmt := 1 |}] [{| positionAmt := -2 |}]).
  reflexivity.
Defined.

(** An open position on the symbol itself, long or short, always refuses,
    whatever the other positions and the configured maximum. *)
Theorem should_open_position_refuses_second (client : Client)
    (MAX_OPEN_POSITIONS : Z) (positions : list FuturesPosition) (symbol : string)
    (position_info : PositionInfo) :
  get_position_info client symbol = Some position_info ->
  ~ position_amount position_info == 0 ->
  should_open_position client MAX_OPEN_POSITIONS positions symbol = false.
Proof.
  intros Hinfo Hopen. unfold should_open_position. rewrite Hinfo.
  apply Qabs_nonzero_pos, Qltb_lt in Hopen. rewrite Hopen. reflexivity.
Qed.

Lemma should_open_position_refuses_second_witness :
  should_open_position (Fixtures.client 1000 None (Some Fixtures.long10)) 5 []
    "BTCUSDT" = false.
Proof.
  apply (should_open_position_refuses_second
           (Fixtures.client 1000 None (Some Fixtures.long10)) 5 [] "BTCUSDT"
           Fixtures.long10).
  - reflexivity.
  - intros H; vm_compute in H; discriminate.
Defined.

End RiskMoreFacts.

(** ** Further properties of strategies.py *)

Module StrategyMoreFacts.
Import PyNum PyNumFacts Strategies StrategyFacts StrategiesMore.

Lemma iloc_neg_Ok_length {A} (s : list A) (k : nat) (v : A) :
  iloc_neg s k = Ok v -> (k <= length s)%nat.
Proof.
  unfold iloc_neg. destruct (Nat.ltb_spec (length s) k); [discriminate | lia].
Qed.

Lemma iloc_neg_Ok {A} (s : list A) (k : nat) :
  (1 <= k <= length s)%nat -> exists v, iloc_neg s k = Ok v.
Proof.
  intros Hk. unfold iloc_neg.
  destruct (Nat.ltb_spec (length s) k); [lia|].
  destruct (lookup_lt_is_Some_2 s (length s - k)%nat ltac:(lia)) as [v ->].
  exists v. reflexivity.
Qed.

Lemma last_two_split {A} (l : list A) :
  (2 <= length l)%nat -> exists pre a b, l = pre ++ [a; b].
Proof.
  intros Hl. induction l as [|x l IH]; [cbn in Hl; lia|].
  destruct l as [|y [|z l]].
  - cbn in Hl. lia.
  - exists [], x, y. reflexivity.
  - destruct IH as (pre & a & b & E); [cbn; lia|].
    exists (x :: pre), a, b. rewrite E. reflexivity.
Qed.

Lemma iloc_neg_last2 {A} (pre : list A) (x y : A) :
  iloc_neg (pre ++ [x; y]) 1 = Ok y.
Proof.
  replace (pre ++ [x; y]) with ((pre ++ [x]) ++ [y])
    by (rewrite <- app_assoc; reflexivity).
  apply iloc_neg_last.
Qed.

(** The decisions on a column given by its last two entries. *)
Lemma rsi_decision_snoc2 (rsi_overbought rsi_oversold : Q) (pre : list (option Q))
    (prev last : option Q) :
  rsi_decision rsi_overbought rsi_oversold (pre ++ [prev; last])
  = Ok (if flt last (Some rsi_oversold) && fge prev (Some rsi_oversold) then BUY
        else if fgt last (Some rsi_overbought) && fle prev (Some rsi_overbought)
             then SELL
        else NONE).
Proof.
  unfold rsi_decision.
  rewrite iloc_neg_last2, iloc_neg_prev. cbn [mbind result_bind].
  repeat match goal with |- context [if ?b then _ else _] => destruct b end;
    reflexivity.
Qed.

Lemma ema_decision_snoc2 (pre_fast pre_slow : list (option Q))
    (prev_fast current_fast prev_slow current_slow : option Q) :
  ema_decision (pre_fast ++ [prev_fast; current_fast])
    (pre_slow ++ [prev_slow; current_slow])
  = Ok (if fgt current_fast current_slow && fle prev_fast prev_slow then BUY
        else if flt current_fast current_slow && fge prev_fast prev_slow then SELL
        else NONE).
Proof.
  unfold ema_decision.
  rewrite !iloc_neg_last2, !iloc_neg_prev. cbn [mbind result_bind].
  repeat match goal with |- context [if ?b then _ else _] => destruct b end;
    reflexivity.
Qed.

Lemma bb_decision_snoc2 (pre_close : list Q) (pre_high pre_low : list (option Q))
    (prev_price current_price : Q)
    (prev_high current_high prev_low current_low : option Q) :
  bb_decision (pre_close ++ [prev_price; current_price])
    (pre_high ++ [prev_high; current_high]) (pre_low ++ [prev_low; current_low])
  = Ok (if flt (Some current_price) current_low && fge (Some prev_price) prev_low
        then BUY
        else if fgt (Some current_price) current_high
                && fle (Some prev_price) prev_high
             then SELL
        else NONE).
Proof.
  unfold bb_decision.
  rewrite !iloc_neg_last2, !iloc_neg_prev. cbn [mbind result_bind].
  repeat match goal with |- context [if ?b then _ else _] => destruct b end;
    reflexivity.
Qed.

(** While the indicator is not filled the strategies stay silent: a [NaN]
    in either of the last two RSI values, in any of the last two fast or slow
    EMA values, or in any of the last two band values of the side that is
    tested, gives NONE. *)
Theorem nan_gives_no_signal :
  (forall rsi_overbought rsi_oversold pre prev last,
     prev = None \/ last = None ->
     rsi_decision rsi_overbought rsi_oversold (pre ++ [prev; last]) = Ok NONE)
  /\ (forall pre_fast pre_slow prev_fast current_fast prev_slow current_slow,
        prev_fast = None \/ current_fast = None
        \/ prev_slow = None \/ current_slow = None ->
        ema_decision (pre_fast ++ [prev_fast; current_fast])
          (pre_slow ++ [prev_slow; current_slow]) = Ok NONE)
  /\ (forall pre_close pre_high pre_low prev_price current_price
             prev_high current_high prev_low current_low,
        (prev_low = None \/ current_low = None)
        /\ (prev_high = None \/ current_high = None) ->
        bb_decision (pre_close ++ [prev_price; current_price])
          (pre_high ++ [prev_high; current_high])
          (pre_low ++ [prev_low; current_low]) = Ok NONE).
Proof.
  split; [|split].
  - intros ob os pre prev last H. rewrite rsi_decision_snoc2.
    destruct prev, last; destruct H as [H | H]; try discriminate;
      cbn [flt fle fgt fge]; rewrite ?andb_false_r; reflexivity.
  - intros pf ps a b c d H. rewrite ema_decision_snoc2.
    destruct a, b, c, d; destruct H as [H | [H | [H | H]]]; try discriminate;
      cbn [flt fle fgt fge]; rewrite ?andb_false_r; reflexivity.
  - intros pc ph pl p c h1 h2 l1 l2 [Hl Hh]. rewrite bb_decision_snoc2.
    destruct h1, h2, l1, l2; destruct Hl as [Hl | Hl]; try discriminate;
      destruct Hh as [Hh | Hh]; try discriminate;
      cbn [flt fle fgt fge]; rewrite ?andb_false_r; reflexivity.
Qed.

Lemma nan_gives_no_signal_witness :
  rsi_decision 70 30 ([] ++ [None; Some 25]) = Ok NONE.
Proof.
  apply (proj1 nan_gives_no_signal 70 30 [] None (Some 25)).
  left. reflexivity.
Defined.

Lemma rsi_decision_Ok_length (rsi_overbought rsi_oversold : Q)
    (rsi : list (option Q)) (signal : Signal) :
  rsi_decision rsi_overbought rsi_oversold rsi = Ok signal -> (2 <= length rsi)%nat.
Proof.
  unfold rsi_decision.
  destruct (iloc_neg rsi 1); cbn [mbind result_bind]; [|discriminate].
  destruct (iloc_neg rsi 2) eqn:E; cbn [mbind result_bind]; [|discriminate].
  intros _. apply (iloc_neg_Ok_length _ _ _ E).
Qed.

Lemma ema_decision_Ok_length (fast slow : list (option Q)) (signal : Signal) :
  ema_decision fast slow = Ok signal ->
  (2 <= length fast)%nat /\ (2 <= length slow)%nat.
Proof.
  unfold ema_decision.
  destruct (iloc_neg fast 1); cbn [mbind result_bind]; [|discriminate].
  destruct (iloc_neg slow 1); cbn [mbind result_bind]; [|discriminate].
  destruct (iloc_neg fast 2) eqn:E1; cbn [mbind result_bind]; [|discriminate].
  destruct (iloc_neg slow 2) eqn:E2; cbn [mbind result_bind]; [|discriminate].
  intros _. split; eapply iloc_neg_Ok_length; eassumption.
Qed.

Lemma bb_decision_Ok_length (closes : list Q) (bb_high bb_low : list (option Q))
    (signal : Signal) :
  bb_decision closes bb_high bb_low = Ok signal ->
  (2 <= length closes)%nat /\ (2 <= length bb_high)%nat /\ (2 <= length bb_low)%nat.
Proof.
  unfold bb_decision.
  destruct (iloc_neg closes 1); cbn [mbind result_bind]; [|discriminate].
  destruct (iloc_neg bb_low 1); cbn [mbind result_bind]; [|discriminate].
  destruct (iloc_neg bb_high 1); cbn [mbind result_bind]; [|discriminate].
  destruct (iloc_neg closes 2) eqn:E1; cbn [mbind result_bind]; [|discriminate].
  destruct (iloc_neg bb_low 2) eqn:E2; cbn [mbind result_bind]; [|discriminate].
  destruct (iloc_neg bb_high 2) eqn:E3; cbn [mbind result_bind]; [|discriminate].
  intros _. repeat split; eapply iloc_neg_Ok_length; eassumption.
Qed.

Section Indicators.
Context (RSIIndicator EMAIndicator : list Q -> Z -> list (option Q)).
Context (bollinger_hband bollinger_lband : list Q -> Z -> Q -> list (option Q)).

(** The indicator columns have one value per bar. *)
Hypothesis RSI_length :
  forall closes window, length (RSIIndicator closes window) = length closes.
Hypothesis EMA_length :
  forall closes window, length (EMAIndicator closes window) = length closes.
Hypothesis hband_length :
  forall closes window dev, length (bollinger_hband closes window dev) = length closes.
Hypothesis lband_length :
  forall closes window dev, length (bollinger_lband closes window dev) = length closes.

(** With fewer than two bars every strategy, the composite included, raises
    [IndexError]; with two bars or more none of them raises. *)
Theorem get_signal_needs_two_bars (strategy : Strategy) (klines : list Kline) :
  ((length klines < 2)%nat ->
   get_signal RSIIndicator EMAIndicator bollinger_hband bollinger_lband
     strategy klines = Raise IndexError)
  /\ ((2 <= length klines)%nat ->
      exists signal,
        get_signal RSIIndicator EMAIndicator bollinger_hband bollinger_lband
          strategy klines = Ok signal).
Proof.
  assert (Hclose : length (prepare_data klines) = length klines)
    by apply length_map.
  induction strategy as [period ob os | fast slow | rs IHr es IHe | window dev];
    cbn [get_signal].
  - pose proof (RSI_length (prepare_data klines) period) as Hlen.
    rewrite Hclose in Hlen.
    set (col := RSIIndicator (prepare_data klines) period) in *. split.
    + intros Hshort. unfold rsi_decision.
      destruct col as [|a [|b col]]; cbn [length] in Hlen; [reflexivity.. | lia].
    + intros Hlong.
      destruct (last_two_split col ltac:(lia)) as (pre & a & b & ->).
      rewrite rsi_decision_snoc2. eexists. reflexivity.
  - pose proof (EMA_length (prepare_data klines) fast) as Hf.
    pose proof (EMA_length (prepare_data klines) slow) as Hs.
    rewrite Hclose in Hf, Hs.
    set (cf := EMAIndicator (prepare_data klines) fast) in *.
    set (cs := EMAIndicator (prepare_data klines) slow) in *. split.
    + intros Hshort. unfold ema_decision.
      destruct cf as [|a [|b cf]]; cbn [length] in Hf;
        destruct cs as [|c [|d cs]]; cbn [length] in Hs;
        first [reflexivity | lia].
    + intros Hlong.
      destruct (last_two_split cf ltac:(lia)) as (pf & a & b & ->).
      destruct (last_two_split cs ltac:(lia)) as (ps & c & d & ->).
      rewrite ema_decision_snoc2. eexists. reflexivity.
  - destruct IHr as [IHr1 IHr2]. destruct IHe as [IHe1 IHe2]. split.
    + intros Hshort. rewrite (IHr1 Hshort). reflexivity.
    + intros Hlong. destruct (IHr2 Hlong) as [r ->]. destruct (IHe2 Hlong) as [e ->].
      eexists. reflexivity.
  - pose proof (hband_length (prepare_data klines) window dev) as Hh.
    pose proof (lband_length (prepare_data klines) window dev) as Hl.
    rewrite Hclose in Hh, Hl.
    set (ch := bollinger_hband (prepare_data klines) window dev) in *.
    set (cl := bollinger_lband (prepare_data klines) window dev) in *.
    set (cc := prepare_data klines) in *. split.
    + intros Hshort. unfold bb_decision.
      destruct cc as [|p [|q cc]]; cbn [length] in Hclose;
        destruct ch as [|a [|b ch]]; cbn [length] in Hh;
        destruct cl as [|c [|d cl]]; cbn [length] in Hl;
        first [reflexivity | lia].
    + intros Hlong.
      destruct (last_two_split cc ltac:(lia)) as (pc & p & q & ->).
      destruct (last_two_split ch ltac:(lia)) as (ph & a & b & ->).
      destruct (last_two_split cl ltac:(lia)) as (pl & c & d & ->).
      rewrite bb_decision_snoc2. eexists. reflexivity.
Qed.

End Indicators.

Lemma get_signal_needs_two_bars_witness :
  get_signal MoreFixtures.echo MoreFixtures.echo Fixtures.no_band Fixtures.no_band
    (new_RSIEMAStrategy Fixtures.cfg) [Fixtures.bar 100]
  = Raise IndexError.
Proof.
  apply (proj1 (get_signal_needs_two_bars MoreFixtures.echo MoreFixtures.echo
                  Fixtures.no_band Fixtures.no_band
                  ltac:(intros; apply length_map) ltac:(intros; apply length_map)
                  ltac:(intros; apply length_map) ltac:(intros; apply length_map)
                  (new_RSIEMAStrategy Fixtures.cfg) [Fixtures.bar 100])).
  cbn. lia.
Defined.

Lemma flt_not_fge (x y : option Q) : flt x y = true -> fge x y = false.
Proof.
  destruct x as [x|], y as [y|]; cbn [flt fge fle]; try discriminate.
  unfold Qltb. intros H. apply negb_true_iff in H. exact H.
Qed.

Lemma fgt_not_fle (x y : option Q) : fgt x y = true -> fle x y = false.
Proof. apply flt_not_fge. Qed.

Ltac split_decision H :=
  repeat match type of H with
         | context [if ?b then _ else _] =>
             let E := fresh "E" in
             destruct b eqn:E;
             [apply andb_prop in E as [? ?] | idtac]
         end.

(** The RSI decision does not repeat a BUY or a SELL on the next bar. *)
Lemma rsi_decision_no_repeat (rsi_overbought rsi_oversold : Q)
    (pre : list (option Q)) (a b c : option Q) (signal : Signal) :
  rsi_decision rsi_overbought rsi_oversold (pre ++ [a; b]) = Ok signal ->
  signal <> NONE ->
  rsi_decision rsi_overbought rsi_oversold ((pre ++ [a]) ++ [b; c]) <> Ok signal.
Proof.
  rewrite !rsi_decision_snoc2. intros H Hs. split_decision H;
    injection H as <-; try congruence.
  - rewrite (flt_not_fge b _) by assumption. rewrite andb_false_r.
    repeat match goal with |- context [if ?x then _ else _] => destruct x end;
      congruence.
  - rewrite (fgt_not_fle b _) by assumption. rewrite andb_false_r.
    repeat match goal with |- context [if ?x then _ else _] => destruct x end;
      congruence.
Qed.

Lemma ema_decision_no_repeat (pre_fast pre_slow : list (option Q))
    (f1 f2 f3 s1 s2 s3 : option Q) (signal : Signal) :
  ema_decision (pre_fast ++ [f1; f2]) (pre_slow ++ [s1; s2]) = Ok signal ->
  signal <> NONE ->
  ema_decision ((pre_fast ++ [f1]) ++ [f2; f3]) ((pre_slow ++ [s1]) ++ [s2; s3])
  <> Ok signal.
Proof.
  rewrite !ema_decision_snoc2. intros H Hs. split_decision H;
    injection H as <-; try congruence.
  - rewrite (fgt_not_fle f2 s2) by assumption. rewrite andb_false_r.
    repeat match goal with |- context [if ?x then _ else _] => destruct x end;
      congruence.
  - rewrite (flt_not_fge f2 s2) by assumption. rewrite andb_false_r.
    repeat match goal with |- context [if ?x then _ else _] => destruct x end;
      congruence.
Qed.

Lemma bb_decision_no_repeat (pre_close : list Q) (pre_high pre_low : list (option Q))
    (p1 p2 p3 : Q) (h1 h2 h3 l1 l2 l3 : option Q) (signal : Signal) :
  bb_decision (pre_close ++ [p1; p2]) (pre_high ++ [h1; h2]) (pre_low ++ [l1; l2])
  = Ok signal ->
  signal <> NONE ->
  bb_decision ((pre_close ++ [p1]) ++ [p2; p3]) ((pre_high ++ [h1]) ++ [h2; h3])
    ((pre_low ++ [l1]) ++ [l2; l3])
  <> Ok signal.
Proof.
  rewrite !bb_decision_snoc2. intros H Hs. split_decision H;
    injection H as <-; try congruence.
  - rewrite (flt_not_fge (Some p2) l2) by assumption. rewrite andb_false_r.
    repeat match goal with |- context [if ?x then _ else _] => destruct x end;
      congruence.
  - rewrite (fgt_not_fle (Some p2) h2) by assumption. rewrite andb_false_r.
    repeat match goal with |- context [if ?x then _ else _] => destruct x end;
      congruence.
Qed.

Lemma rsi_ema_decision_follows_rsi (rsi_signal ema_signal : Signal) :
  rsi_ema_decision rsi_signal ema_signal <> NONE ->
  rsi_ema_decision rsi_signal ema_signal = rsi_signal.
Proof. destruct rsi_signal, ema_signal; cbn; congruence. Qed.

Section Causal.
Context (RSIIndicator EMAIndicator : list Q -> Z -> list (option Q)).
Context (bollinger_hband bollinger_lband : list Q -> Z -> Q -> list (option Q)).

(** A new bar adds one value to an indicator column and leaves the earlier
    values as they were. *)
Hypothesis RSI_causal : forall closes x window,
  exists v, RSIIndicator (closes ++ [x]) window = RSIIndicator closes window ++ [v].
Hypothesis EMA_causal : forall closes x window,
  exists v, EMAIndicator (closes ++ [x]) window = EMAIndicator closes window ++ [v].
Hypothesis hband_causal : forall closes x window dev,
  exists v, bollinger_hband (closes ++ [x]) window dev
            = bollinger_hband closes window dev ++ [v].
Hypothesis lband_causal : forall closes x window dev,
  exists v, bollinger_lband (closes ++ [x]) window dev
            = bollinger_lband closes window dev ++ [v].

(** No strategy, the composite included, emits the same BUY or SELL on two
    consecutive bars: a signal fires on the crossing bar only. *)
Theorem no_signal_twice_in_a_row (strategy : Strategy) (klines : list Kline)
    (next : Kline) (signal : Signal) :
  get_signal RSIIndicator EMAIndicator bollinger_hband bollinger_lband
    strategy klines = Ok signal ->
  signal <> NONE ->
  get_signal RSIIndicator EMAIndicator bollinger_hband bollinger_lband
    strategy (klines ++ [next]) <> Ok signal.
Proof.
  assert (Hclose : prepare_data (klines ++ [next])
                   = prepare_data klines ++ [close next])
    by (unfold prepare_data; apply map_app).
  revert signal.
  induction strategy as [period ob os | fast slow | rs IHr es IHe | window dev];
    intros signal; cbn [get_signal]; rewrite ?Hclose.
  - destruct (RSI_causal (prepare_data klines) (close next) period) as [v ->].
    intros H Hs.
    destruct (last_two_split _ (rsi_decision_Ok_length _ _ _ _ H))
      as (pre & a & b & E).
    rewrite E in H |- *. rewrite <- app_assoc. cbn [app].
    change (pre ++ [a; b; v]) with (pre ++ [a] ++ [b; v]). rewrite app_assoc.
    apply rsi_decision_no_repeat; assumption.
  - destruct (EMA_causal (prepare_data klines) (close next) fast) as [vf ->].
    destruct (EMA_causal (prepare_data klines) (close next) slow) as [vs ->].
    intros H Hs.
    destruct (ema_decision_Ok_length _ _ _ H) as [Lf Ls].
    destruct (last_two_split _ Lf) as (pf & f1 & f2 & Ef).
    destruct (last_two_split _ Ls) as (ps & s1 & s2 & Es).
    rewrite Ef, Es in H |- *. rewrite <- !app_assoc. cbn [app].
    change (pf ++ [f1; f2; vf]) with (pf ++ [f1] ++ [f2; vf]).
    change (ps ++ [s1; s2; vs]) with (ps ++ [s1] ++ [s2; vs]).
    rewrite !app_assoc.
    apply ema_decision_no_repeat; assumption.
  - intros H Hs.
    destruct (get_signal _ _ _ _ rs klines) as [r|] eqn:Er;
      cbn [mbind result_bind] in H; [|discriminate].
    destruct (get_signal _ _ _ _ es klines) as [e|] eqn:Ee;
      cbn [mbind result_bind] in H; [|discriminate].
    injection H as <-.
    pose proof (rsi_ema_decision_follows_rsi r e Hs) as Hr.
    rewrite Hr in Hs |- *.
    specialize (IHr r eq_refl Hs).
    destruct (get_signal _ _ _ _ rs (klines ++ [next])) as [r'|];
      cbn [mbind result_bind]; [|discriminate].
    destruct (get_signal _ _ _ _ es (klines ++ [next])) as [e'|];
      cbn [mbind result_bind]; [|discriminate].
    intros [= Habs]. apply IHr. f_equal.
    destruct r', e', r; cbn in Habs; congruence.
  - destruct (hband_causal (prepare_data klines) (close next) window dev) as [vh ->].
    destruct (lband_causal (prepare_data klines) (close next) window dev) as [vl ->].
    remember (bollinger_hband (prepare_data klines) window dev) as ch eqn:Hch.
    remember (bollinger_lband (prepare_data klines) window dev) as cl eqn:Hcl.
    remember (prepare_data klines) as cc eqn:Hcc.
    clear Hch Hcl Hcc Hclose.
    intros H Hs.
    destruct (bb_decision_Ok_length _ _ _ _ H) as (Lc & Lh & Ll).
    destruct (last_two_split _ Lc) as (pc & p1 & p2 & ->).
    destruct (last_two_split _ Lh) as (ph & h1 & h2 & ->).
    destruct (last_two_split _ Ll) as (pl & l1 & l2 & ->).
    rewrite <- !app_assoc. cbn [app].
    change (pc ++ [p1; p2; close next]) with (pc ++ [p1] ++ [p2; close next]).
    change (ph ++ [h1; h2; vh]) with (ph ++ [h1] ++ [h2; vh]).
    change (pl ++ [l1; l2; vl]) with (pl ++ [l1] ++ [l2; vl]).
    rewrite !app_assoc.
    apply bb_decision_no_repeat; assumption.
Qed.

End Causal.

Lemma no_signal_twice_in_a_row_witness :
  get_signal MoreFixtures.echo MoreFixtures.echo Fixtures.no_band Fixtures.no_band
    (new_RSIStrategy Fixtures.cfg)
    ([Fixtures.bar 35; Fixtures.bar 25] ++ [Fixtures.bar 20])
  <> Ok BUY.
Proof.
  apply (no_signal_twice_in_a_row MoreFixtures.echo MoreFixtures.echo
           Fixtures.no_band Fixtures.no_band
           ltac:(intros; eexists; unfold MoreFixtures.echo; rewrite map_app; reflexivity)
           ltac:(intros; eexists; unfold MoreFixtures.echo; rewrite map_app; reflexivity)
           ltac:(intros; eexists; unfold Fixtures.no_band; rewrite map_app; reflexivity)
           ltac:(intros; eexists; unfold Fixtures.no_band; rewrite map_app; reflexivity)
           (new_RSIStrategy Fixtures.cfg) [Fixtures.bar 35; Fixtures.bar 25]
           (Fixtures.bar 20) BUY).
  - vm_compute. reflexivity.
  - discriminate.
Defined.

(** The factory never raises, and the name of the strategy it returns is
    the requested name when that is one of the four registered names and
    ["RSI_EMA"] otherwise: every class is registered under its own name. *)
Theorem get_strategy_name (cfg : Config) (name : string) :
  exists strategy,
    get_strategy cfg name = Ok strategy
    /\ strategy_name strategy
       = if bool_decide (name ∈ ["RSI"; "EMA_Cross"; "RSI_EMA"; "Bollinger_Bands"])
         then name else "RSI_EMA".
Proof.
  destruct (decide (name ∈ ["RSI"; "EMA_Cross"; "RSI_EMA"; "Bollinger_Bands"]))
    as [Hin | Hnot].
  - rewrite bool_decide_eq_true_2 by exact Hin.
    unfold get_strategy, getitem, strategies.
    repeat (apply elem_of_cons in Hin as [-> | Hin]);
      [| | | | apply elem_of_nil in Hin; contradiction];
      rewrite ?lookup_insert_eq, ?lookup_insert_ne by discriminate;
      rewrite ?lookup_insert_eq;
      (rewrite bool_decide_eq_true_2 by (eexists; reflexivity));
      eexists; (split; [reflexivity|]); reflexivity.
  - rewrite bool_decide_eq_false_2 by exact Hnot.
    unfold get_strategy, getitem.
    rewrite (strategies_lookup_unknown cfg name Hnot), strategies_lookup_RSI_EMA.
    rewrite bool_decide_eq_false_2 by (intros [? ?]; discriminate).
    eexists. split; reflexivity.
Qed.

End StrategyMoreFacts.
